(** * HeroUI documentation server: extractor and tool adapter

    A shallow embedding of the two components of the repository:

    - the document extractor ([heroUiScraper]: [fetchHtml], [getComponentList],
      [getComponentExamples], [getComponentApi]), and
    - the tool adapter ([MinimalMcpServer.registerTools]: the three tool
      handlers and their input schemas).

    Conventions of the embedding.

    - A JavaScript string is a [string]: a sequence of code units below 256.
      White space and case mapping are those of ECMAScript on that range.
      A Rocq string literal has no escape sequences, so the literal written
      backslash-n below is the two characters backslash and n, exactly as
      the source's ['\\n'] is; the line feed character is [LF].
    - [cheerio.load] is the HTML parser of a library; the embedding starts
      from the tree it returns ([node], [document]) and takes the parser as
      a function [load] to a completion: a [Throw] of [load] stands for a
      fault raised inside the [try] block after the fetch, by the parser
      or while the page is scanned.
    - [await fetch(url)] is a function from the URL to a completion: either
      a response (status, status text, body) or a rejection.
    - A JavaScript computation that may throw is a [completion]; try/catch
      is [try_catch].  [console.warn] and [console.error] write to the
      process's standard streams only and are left out; the adapter's
      logging channel is modelled ([Tool], [sendLoggingMessage]). *)

From Stdlib Require Import String Ascii List Bool Arith Lia.
Import ListNotations.

Set Warnings "-register-all".

Local Open Scope string_scope.
Local Open Scope list_scope.

(* ===================================================================== *)
(** ** JavaScript strings *)
(* ===================================================================== *)

Module Js.

Definition LF : ascii := ascii_of_nat 10.

(** [s ? a : b] on a string: the empty string is falsy. *)
Definition truthy (s : string) : bool :=
  match s with
  | EmptyString => false
  | String _ _ => true
  end.

(** [s || d] on strings. *)
Definition or_else (s d : string) : string :=
  if truthy s then s else d.

(** [o || undefined]. *)
Definition or_undefined (s : string) : option string :=
  if truthy s then Some s else None.

(** ECMAScript WhiteSpace and LineTerminator below 256: TAB, LF, VT,
    FF, CR, SP and NBSP. *)
Definition is_white (c : ascii) : bool :=
  let n := nat_of_ascii c in
  (((9 <=? n) && (n <=? 13)) || (n =? 32) || (n =? 160))%nat.

Fixpoint trimStart (s : string) : string :=
  match s with
  | EmptyString => EmptyString
  | String c r => if is_white c then trimStart r else s
  end.

Fixpoint trimEnd (s : string) : string :=
  match s with
  | EmptyString => EmptyString
  | String c r =>
      let r' := trimEnd r in
      if is_white c && negb (truthy r') then EmptyString else String c r'
  end.

(** [String.prototype.trim]. *)
Definition trim (s : string) : string := trimEnd (trimStart s).

(** Simple case mapping below 256: A-Z, and the Latin-1 capitals
    U+00C0..U+00DE except the multiplication sign U+00D7. *)
Definition lower (c : ascii) : ascii :=
  let n := nat_of_ascii c in
  if (((65 <=? n) && (n <=? 90))
      || ((192 <=? n) && (n <=? 222) && negb (n =? 215)))%nat
  then ascii_of_nat (n + 32) else c.

(** [String.prototype.toLowerCase]. *)
Fixpoint toLowerCase (s : string) : string :=
  match s with
  | EmptyString => EmptyString
  | String c r => String (lower c) (toLowerCase r)
  end.

(** [s.startsWith(p)]. *)
Definition startsWith (p s : string) : bool := String.prefix p s.

(** [s.endsWith(suf)]: some suffix of [s] is [suf]. *)
Fixpoint endsWith (suf s : string) : bool :=
  String.eqb s suf
  || match s with
     | EmptyString => false
     | String _ r => endsWith suf r
     end.

(** [s.includes(sub)]: [sub] starts at some position of [s]. *)
Fixpoint includes (sub s : string) : bool :=
  String.prefix sub s
  || match s with
     | EmptyString => false
     | String _ r => includes sub r
     end.

(** [s.split(sep)] for a one-character separator: never empty. *)
Fixpoint split (sep : ascii) (s : string) : list string :=
  match s with
  | EmptyString => [EmptyString]
  | String c r =>
      if Ascii.eqb c sep then EmptyString :: split sep r
      else match split sep r with
           | [] => [String c EmptyString]
           | h :: t => String c h :: t
           end
  end.

(** [a.pop()] read as a value: the last element, [undefined] on []. *)
Definition pop (a : list string) : option string :=
  match rev a with
  | [] => None
  | x :: _ => Some x
  end.

(** [a.join(sep)]. *)
Definition join (sep : string) (a : list string) : string :=
  String.concat sep a.

End Js.

(* ===================================================================== *)
(** ** The parsed document and the selections the extractor makes *)
(* ===================================================================== *)

Module Dom.

(** A node of the tree the parser returns.  Tag and attribute names are
    in lower case, as the parser leaves them.  Comments carry no text and
    match no selector, so they are not represented. *)
Inductive node : Type :=
| Element (name : string) (attribs : list (string * string))
          (children : list node)
| Text (data : string).

(** The children of the document root, in document order. *)
Definition document : Type := list node.

(** An element of a selection, with the links the tree keeps for it:
    the siblings before it (nearest first), the siblings after it, and
    the tag names of its ancestors (nearest first) below the root the
    selection was made from. *)
Record selected : Type := {
  el : node;
  prevSiblings : list node;
  nextSiblings : list node;
  ancestors : list string
}.

Definition childNodes (n : node) : list node :=
  match n with
  | Element _ _ cs => cs
  | Text _ => []
  end.

Definition is_tag (t : string) (n : node) : bool :=
  match n with
  | Element t' _ _ => String.eqb t' t
  | Text _ => false
  end.

Definition is_element (n : node) : bool :=
  match n with
  | Element _ _ _ => true
  | Text _ => false
  end.

Fixpoint lookup (k : string) (l : list (string * string)) : option string :=
  match l with
  | [] => None
  | (k', v) :: r => if String.eqb k' k then Some v else lookup k r
  end.

(** [$(n).attr(k)] on one node. *)
Definition attr (k : string) (n : node) : option string :=
  match n with
  | Element _ a _ => lookup k a
  | Text _ => None
  end.

(** [textContent]: the text of all descendant text nodes, in order. *)
Fixpoint textContent (n : node) : string :=
  match n with
  | Text d => d
  | Element _ _ cs => String.concat EmptyString (map textContent cs)
  end.

(** [sel.text()]: the combined text of every element of the selection. *)
Definition text (sel : list selected) : string :=
  String.concat EmptyString (map (fun s => textContent (el s)) sel).

(** [sel.attr(k)]: the attribute of the first element of the selection. *)
Definition attrOf (k : string) (sel : list selected) : option string :=
  match sel with
  | [] => None
  | s :: _ => attr k (el s)
  end.

(** Visit a list of siblings from left to right, giving each one the
    siblings before it (nearest first) and after it. *)
Definition eachSibling {A : Type}
    (f : list node -> list node -> node -> list A)
    : list node -> list node -> list A :=
  fix go (before l : list node) : list A :=
    match l with
    | [] => []
    | c :: after => f before after c ++ go (c :: before) after
    end.

(** The element [n] and all elements below it, in document order. *)
Fixpoint descend (anc : list string) (before after : list node)
    (n : node) : list selected :=
  match n with
  | Text _ => []
  | Element t _ cs =>
      {| el := n; prevSiblings := before; nextSiblings := after;
         ancestors := anc |}
      :: eachSibling (descend (t :: anc)) [] cs
  end.

(** Every element below a list of sibling roots, in document order. *)
Definition elementsOf (roots : list node) : list selected :=
  eachSibling (descend []) [] roots.

(** [s.find(...)] searches below [s]: ancestors are counted from [s]. *)
Definition below (s : selected) : list selected :=
  elementsOf (childNodes (el s)).

Definition belowAll (sel : list selected) : list selected :=
  flat_map below sel.

Definition hasAncestor (t : string) (s : selected) : bool :=
  existsb (String.eqb t) (ancestors s).

(** [sel.first()]. *)
Definition first {A : Type} (sel : list A) : list A :=
  match sel with
  | [] => []
  | s :: _ => [s]
  end.

(** The siblings after an element that are elements, nearest first,
    each with its own links. *)
Fixpoint nextElements (anc : list string) (before after : list node)
    : list selected :=
  match after with
  | [] => []
  | c :: r =>
      (if is_element c
       then [ {| el := c; prevSiblings := before; nextSiblings := r;
                 ancestors := anc |} ]
       else [])
      ++ nextElements anc (c :: before) r
  end.

(** The siblings before an element that are elements, nearest first. *)
Fixpoint prevElements (anc : list string) (before after : list node)
    : list selected :=
  match before with
  | [] => []
  | c :: r =>
      (if is_element c
       then [ {| el := c; prevSiblings := r; nextSiblings := after;
                 ancestors := anc |} ]
       else [])
      ++ prevElements anc r (c :: after)
  end.

(** [s.next(t)]: the next sibling that is an element, kept when its tag
    is [t]. *)
Definition next (t : string) (s : selected) : list selected :=
  filter (fun x => is_tag t (el x))
         (first (nextElements (ancestors s) (el s :: prevSiblings s)
                              (nextSiblings s))).

(** [s.prevAll(t)]: the preceding siblings with tag [t], nearest first. *)
Definition prevAll (t : string) (s : selected) : list selected :=
  filter (fun x => is_tag t (el x))
         (prevElements (ancestors s) (prevSiblings s)
                       (el s :: nextSiblings s)).

End Dom.

(* ===================================================================== *)
(** ** Computations that may throw *)
(* ===================================================================== *)

(** What a [catch] clause can receive: a [ScrapingError] (config.ts), any
    other [Error] object, or a value that is not an [Error] (given by its
    [String(...)] rendering). *)
Inductive thrown : Type :=
| ScrapingError (message : string)
| OtherError (message : string)
| NotAnError (rendering : string).

(** [error instanceof Error ? error.message : String(error)]. *)
Definition messageOf (error : thrown) : string :=
  match error with
  | ScrapingError m => m
  | OtherError m => m
  | NotAnError r => r
  end.

(** [error instanceof ScrapingError]. *)
Definition isScrapingError (error : thrown) : bool :=
  match error with
  | ScrapingError _ => true
  | _ => false
  end.

Inductive completion (A : Type) : Type :=
| Return (a : A)
| Throw (error : thrown).

Arguments Return {A} a.
Arguments Throw {A} error.

Definition bind {A B : Type} (c : completion A) (k : A -> completion B)
    : completion B :=
  match c with
  | Return a => k a
  | Throw e => Throw e
  end.

(** [try { body } catch (error) { handler }]. *)
Definition try_catch {A : Type} (body : completion A)
    (handler : thrown -> completion A) : completion A :=
  match body with
  | Return a => Return a
  | Throw e => handler e
  end.

Declare Scope js_scope.
Delimit Scope js_scope with js.
Notation "x <- c ;; k" := (bind c (fun x => k))
  (at level 61, c at next level, right associativity) : js_scope.
Local Open Scope js_scope.

(* ===================================================================== *)
(** ** config.ts *)
(* ===================================================================== *)

Definition BASE_URL : string := "https://www.heroui.com/docs".

Module ComponentReference.
(** The entries [getComponentList] returns. *)
Record t : Type := { name : string; url : string }.
End ComponentReference.

Module ComponentExample.
Record t : Type := {
  title : option string;
  code : string;
  language : string
}.
End ComponentExample.

Module ApiProperty.
Record t : Type := {
  name : string;
  type : string;
  description : option string;
  defaultValue : option string
}.
End ApiProperty.

Module ApiEvent.
Record t : Type := {
  name : string;
  type : string;
  description : option string
}.
End ApiEvent.

Module ComponentApi.
Record t : Type := {
  props : list ApiProperty.t;
  events : list ApiEvent.t
}.
End ComponentApi.

(* ===================================================================== *)
(** ** The transport *)
(* ===================================================================== *)

Module Http.

(** What [await fetch(url)] resolves to.  [text] is the outcome of
    [await response.text()]. *)
Record Response : Type := {
  status : nat;
  statusText : string;
  text : completion string
}.

(** [response.ok]: the status is in the range 200-299. *)
Definition ok (r : Response) : bool :=
  ((200 <=? status r) && (status r <=? 299))%nat.

(** The transport: a response, or a rejection (connection failure). *)
Definition Fetch : Type := string -> completion Response.

End Http.

(* ===================================================================== *)
(** ** heroUiScraper: the document extractor *)
(* ===================================================================== *)

Module Scraper.

Import Js Dom.

(** [$('nav a[href^="/docs/components/"]')]: the anchors below a [nav]
    whose [href] starts with the components root, in document order. *)
Definition navComponentLinks (doc : document) : list selected :=
  filter (fun s =>
            is_tag "a" (el s) && hasAncestor "nav" s
            && match attr "href" (el s) with
               | Some h => startsWith "/docs/components/" h
               | None => false
               end)
         (elementsOf doc).

(** [$('div[data-slot="component-preview"]')]. *)
Definition previewDivs (doc : document) : list selected :=
  filter (fun s =>
            is_tag "div" (el s)
            && match attr "data-slot" (el s) with
               | Some v => String.eqb v "component-preview"
               | None => false
               end)
         (elementsOf doc).

(** [$('h3')]. *)
Definition headings (doc : document) : list selected :=
  filter (fun s => is_tag "h3" (el s)) (elementsOf doc).

(** [sel.find('pre code')]. *)
Definition findPreCode (sel : list selected) : list selected :=
  filter (fun s => is_tag "code" (el s) && hasAncestor "pre" s)
         (belowAll sel).

(** [sel.find('tbody tr')]. *)
Definition findBodyRows (sel : list selected) : list selected :=
  filter (fun s => is_tag "tr" (el s) && hasAncestor "tbody" s)
         (belowAll sel).

(** [sel.find('td')]. *)
Definition findCells (sel : list selected) : list selected :=
  filter (fun s => is_tag "td" (el s)) (belowAll sel).

(** [$(cells[i]).text().trim()]; the selection of [undefined] is empty. *)
Definition cellText (cells : list selected) (i : nat) : string :=
  match nth_error cells i with
  | Some c => trim (text [c])
  | None => trim (text [])
  end.

(** The body of the [each] callback of [getComponentList]. *)
Definition pushComponent (components : list ComponentReference.t)
    (link : selected) : list ComponentReference.t :=
  let href := attr "href" (el link) in
  let name := trim (text [link]) in
  match href with
  | Some href =>
      if truthy href && truthy name && negb (endsWith "/components/" href)
      then
        let fullUrl :=
          if startsWith "http" href then href
          else ("https://www.heroui.com" ++ href)%string in
        components
          ++ [ {| ComponentReference.name := name;
                  ComponentReference.url := fullUrl |} ]
      else components
  | None => components
  end.

Definition componentsOf (doc : document) : list ComponentReference.t :=
  fold_left pushComponent (navComponentLinks doc) [].

(** [codeElement.attr('class')?.split('-').pop() || 'typescript']. *)
Definition languageOf (codeElement : list selected) : string :=
  match attrOf "class" codeElement with
  | Some cls =>
      match pop (split "-" cls) with
      | Some l => or_else l "typescript"
      | None => "typescript"
      end
  | None => "typescript"
  end.

(** The body of the [each] callback of [getComponentExamples]. *)
Definition pushExample (examples : list ComponentExample.t)
    (previewDiv : selected) : list ComponentExample.t :=
  let title := or_undefined (trim (text (first (prevAll "h3" previewDiv)))) in
  let codeElement := findPreCode [previewDiv] in
  let code := trim (text codeElement) in
  let language := languageOf codeElement in
  if truthy code
  then examples
         ++ [ {| ComponentExample.title := title;
                 ComponentExample.code := code;
                 ComponentExample.language := language |} ]
  else examples.

Definition examplesOf (doc : document) : list ComponentExample.t :=
  fold_left pushExample (previewDivs doc) [].

(** The body of the [each] callback over the rows of a props table. *)
Definition pushProp (api : ComponentApi.t) (tr : selected)
    : ComponentApi.t :=
  let cells := findCells [tr] in
  if (2 <=? length cells)%nat
  then
    {| ComponentApi.props :=
         ComponentApi.props api
         ++ [ {| ApiProperty.name := cellText cells 0;
                 ApiProperty.type := cellText cells 1;
                 ApiProperty.description :=
                   if (2 <? length cells)%nat
                   then Some (cellText cells 2) else None;
                 ApiProperty.defaultValue :=
                   if (3 <? length cells)%nat
                   then Some (cellText cells 3) else None |} ];
       ComponentApi.events := ComponentApi.events api |}
  else api.

(** The body of the [each] callback over the rows of an events table. *)
Definition pushEvent (api : ComponentApi.t) (tr : selected)
    : ComponentApi.t :=
  let cells := findCells [tr] in
  if (2 <=? length cells)%nat
  then
    {| ComponentApi.props := ComponentApi.props api;
       ComponentApi.events :=
         ComponentApi.events api
         ++ [ {| ApiEvent.name := cellText cells 0;
                 ApiEvent.type := cellText cells 1;
                 ApiEvent.description :=
                   if (2 <? length cells)%nat
                   then Some (cellText cells 2) else None |} ] |}
  else api.

(** The body of the [each] callback over the headings. *)
Definition scanHeading (api : ComponentApi.t) (h3 : selected)
    : ComponentApi.t :=
  let title := toLowerCase (trim (text [h3])) in
  let table := first (next "table" h3) in
  if (0 <? length table)%nat
  then
    if includes "props" title
    then fold_left pushProp (findBodyRows table) api
    else if includes "events" title
    then fold_left pushEvent (findBodyRows table) api
    else api
  else api.

(** The [api] object once every heading has been visited. *)
Definition scanned (doc : document) : ComponentApi.t :=
  fold_left scanHeading (headings doc)
            {| ComponentApi.props := []; ComponentApi.events := [] |}.

(** The validation at the end of [getComponentApi]: [null] when nothing
    was collected. *)
Definition apiOf (doc : document) : option ComponentApi.t :=
  let api := scanned doc in
  if (length (ComponentApi.props api) =? 0)%nat
     && (length (ComponentApi.events api) =? 0)%nat
  then None
  else Some api.

Definition componentUrl (componentName : string) : string :=
  (BASE_URL ++ "/components/" ++ toLowerCase componentName)%string.

Section Extractor.

Variable fetch : Http.Fetch.
Variable load : string -> completion document.

Definition fetchHtml (url : string) : completion string :=
  try_catch
    (response <- fetch url ;;
     if negb (Http.ok response)
     then Throw (ScrapingError
                   ("Failed to fetch " ++ url ++ ": "
                    ++ Http.statusText response)%string)
     else Http.text response)
    (fun error =>
       if isScrapingError error then Throw error
       else Throw (ScrapingError
                     ("Network error fetching " ++ url ++ ": "
                      ++ messageOf error)%string)).

Definition getComponentList : completion (list ComponentReference.t) :=
  try_catch
    (html <- fetchHtml (BASE_URL ++ "/guide/introduction")%string ;;
     doc <- load html ;;
     Return (componentsOf doc))
    (fun error =>
       Throw (ScrapingError
                ("Failed to get component list: " ++ messageOf error)%string)).

Definition getComponentExamples (componentName : string)
    : completion (list ComponentExample.t) :=
  try_catch
    (html <- fetchHtml (componentUrl componentName) ;;
     doc <- load html ;;
     Return (examplesOf doc))
    (fun error =>
       if isScrapingError error && negb (includes "404" (messageOf error))
       then Throw error
       else if negb (isScrapingError error)
       then Throw (ScrapingError
                     ("Failed to get examples for " ++ componentName
                      ++ ": " ++ messageOf error)%string)
       else Return []).

Definition getComponentApi (componentName : string)
    : completion (option ComponentApi.t) :=
  try_catch
    (html <- fetchHtml (componentUrl componentName) ;;
     doc <- load html ;;
     Return (apiOf doc))
    (fun error =>
       if isScrapingError error && negb (includes "404" (messageOf error))
       then Throw error
       else if negb (isScrapingError error)
       then Throw (ScrapingError
                     ("Failed to get API for " ++ componentName
                      ++ ": " ++ messageOf error)%string)
       else Return None).

End Extractor.

(** The request was rejected, or the body could not be read, for a cause
    that is not itself a [ScrapingError]. *)
Definition ownFault (fetch : Http.Fetch) (url : string) : Prop :=
  match fetch url with
  | Throw e0 => isScrapingError e0 = false
  | Return r =>
      match Http.text r with
      | Throw e1 => isScrapingError e1 = false
      | Return _ => True
      end
  end.

End Scraper.

(* ===================================================================== *)
(** ** MinimalMcpServer: the tool adapter *)
(* ===================================================================== *)

Module Server.

Import Js.

(** What [this.server.server.sendLoggingMessage] is given. *)
Record LoggingMessage : Type := { level : string; data : list string }.

(** An entry of [content]: [{ type: "text", text }], or
    [{ type: "code", ...ex }] for an example [ex]. *)
Inductive ContentItem : Type :=
| TextItem (text : string)
| CodeItem (ex : ComponentExample.t).

(** The envelope a handler returns.  [isError] is [None] when the field
    is not set. *)
Record CallToolResult : Type := {
  isError : option bool;
  content : list ContentItem
}.

(** A handler: it may throw, and it appends to the logging channel. *)
Definition Tool (A : Type) : Type :=
  list LoggingMessage -> completion A * list LoggingMessage.

Definition ret {A : Type} (a : A) : Tool A := fun l => (Return a, l).

Definition bindT {A B : Type} (c : Tool A) (k : A -> Tool B) : Tool B :=
  fun l =>
    match c l with
    | (Return a, l') => k a l'
    | (Throw e, l') => (Throw e, l')
    end.

(** [await c] for an extractor call [c]. *)
Definition await {A : Type} (c : completion A) : Tool A := fun l => (c, l).

(** [try { body } catch (error) { handler }]: what the body logged
    before it threw stays logged. *)
Definition tryT {A : Type} (body : Tool A) (handler : thrown -> Tool A)
    : Tool A :=
  fun l =>
    match body l with
    | (Return a, l') => (Return a, l')
    | (Throw e, l') => handler e l'
    end.

Definition sendLoggingMessage (m : LoggingMessage) : Tool unit :=
  fun l => (Return tt, l ++ [m]).

(** [this.log(...data)] and [this.error(...data)]; every argument the
    handlers pass is a string. *)
Definition log (data : list string) : Tool unit :=
  sendLoggingMessage {| level := "info"; data := data |}.

Definition error (data : list string) : Tool unit :=
  sendLoggingMessage {| level := "error"; data := data |}.

Declare Scope tool_scope.
Delimit Scope tool_scope with tool.
Notation "x <- c ;; k" := (bindT c (fun x => k))
  (at level 61, c at next level, right associativity) : tool_scope.
Notation "c ;; k" := (bindT c (fun _ => k))
  (at level 61, right associativity) : tool_scope.
Local Open Scope tool_scope.

(** *** Input schemas *)

(** The arguments a host sends, as JavaScript values. *)
Inductive JsValue : Type :=
| JUndefined
| JNull
| JBoolean (b : bool)
| JNumber (n : nat)
| JString (s : string)
| JObject (fields : list (string * JsValue)).

(** The checks a zod string schema can carry: [.min(n)]. *)
Inductive StringCheck : Type :=
| Min (n : nat).

(** [z.string()] with its checks; [.describe(...)] adds none. *)
Inductive ZodType : Type :=
| ZodString (checks : list StringCheck).

Definition passes (s : string) (c : StringCheck) : bool :=
  match c with
  | Min n => (n <=? String.length s)%nat
  end.

Definition accepts (t : ZodType) (v : JsValue) : bool :=
  match t, v with
  | ZodString checks, JString s => forallb (passes s) checks
  | ZodString _, _ => false
  end.

Fixpoint property (k : string) (fields : list (string * JsValue))
    : JsValue :=
  match fields with
  | [] => JUndefined
  | (k', v) :: r => if String.eqb k' k then v else property k r
  end.

(** Validation of the arguments against a raw shape: every key of the
    shape is checked against the property of that name. *)
Definition validate (shape : list (string * ZodType)) (args : JsValue)
    : bool :=
  match args with
  | JObject fields =>
      forallb (fun kt => accepts (snd kt) (property (fst kt) fields)) shape
  | _ => false
  end.

(** The input schema of [get_heroui_component_examples] and of
    [get_heroui_component_api]: [{ componentName: z.string() }]. *)
Definition componentNameSchema : list (string * ZodType) :=
  [ ("componentName", ZodString []) ].

(** *** Formatting *)

(** [`- ${c.name} (${c.url})`]. *)
Definition componentLine (c : ComponentReference.t) : string :=
  ("- " ++ ComponentReference.name c ++ " ("
   ++ ComponentReference.url c ++ ")")%string.

Definition componentListText (components : list ComponentReference.t)
    : string :=
  join "\n" (map componentLine components).

(** [x ? `...${x}...` : ''] for an optional field [x]. *)
Definition clause (before : string) (x : option string) (after : string)
    : string :=
  match x with
  | Some v => if truthy v then (before ++ v ++ after)%string
              else EmptyString
  | None => EmptyString
  end.

Definition propLine (p : ApiProperty.t) : string :=
  ("- `" ++ ApiProperty.name p ++ "`: `" ++ ApiProperty.type p ++ "`"
   ++ clause " (default: `" (ApiProperty.defaultValue p) "`)"
   ++ clause " - " (ApiProperty.description p) EmptyString)%string.

Definition eventLine (e : ApiEvent.t) : string :=
  ("- `" ++ ApiEvent.name e ++ "`: `" ++ ApiEvent.type e ++ "`"
   ++ clause " - " (ApiEvent.description e) EmptyString)%string.

(** [apiText] after the two conditional appends. *)
Definition apiTextOf (componentName : string) (api : ComponentApi.t)
    : string :=
  let apiText := ("API for " ++ componentName ++ ":\n\n")%string in
  let apiText :=
    if (0 <? length (ComponentApi.props api))%nat
    then (((apiText ++ "**Props:**\n")
           ++ join "\n" (map propLine (ComponentApi.props api)))
          ++ "\n\n")%string
    else apiText in
  let apiText :=
    if (0 <? length (ComponentApi.events api))%nat
    then ((apiText ++ "**Events:**\n")
          ++ join "\n" (map eventLine (ComponentApi.events api)))%string
    else apiText in
  apiText.

(** *** The three handlers *)

Section Handlers.

Variable getComponentList : completion (list ComponentReference.t).
Variable getComponentExamples
  : string -> completion (list ComponentExample.t).
Variable getComponentApi : string -> completion (option ComponentApi.t).

Definition get_heroui_component_list : Tool CallToolResult :=
  tryT
    (log [ "Executing get_heroui_component_list tool" ] ;;
     components <- await getComponentList ;;
     if (length components =? 0)%nat
     then ret {| isError := None;
                 content := [ TextItem "Could not find any components. The documentation structure might have changed." ] |}
     else
       ret {| isError := None;
              content := [ TextItem ("Available HeroUI Components:\n"
                                     ++ componentListText components) ] |})
    (fun err =>
       let message := messageOf err in
       error [ ("Error in get_heroui_component_list tool: "
                ++ message)%string ] ;;
       ret {| isError := Some true;
              content := [ TextItem ("Error fetching component list: "
                                     ++ message) ] |}).

Definition get_heroui_component_examples (componentName : string)
    : Tool CallToolResult :=
  tryT
    (log [ ("Executing get_heroui_component_examples tool for: "
            ++ componentName)%string ] ;;
     examples <- await (getComponentExamples componentName) ;;
     if (length examples =? 0)%nat
     then ret {| isError := None;
                 content := [ TextItem ("No examples found for component '"
                                        ++ componentName
                                        ++ "'. Check the component name or the documentation structure.") ] |}
     else ret {| isError := None; content := map CodeItem examples |})
    (fun err =>
       let message := messageOf err in
       error [ ("Error in get_heroui_component_examples tool for "
                ++ componentName ++ ": " ++ message)%string ] ;;
       ret {| isError := Some true;
              content := [ TextItem ("Error fetching examples for "
                                     ++ componentName ++ ": "
                                     ++ message) ] |}).

Definition get_heroui_component_api (componentName : string)
    : Tool CallToolResult :=
  tryT
    (log [ ("Executing get_heroui_component_api tool for: "
            ++ componentName)%string ] ;;
     api <- await (getComponentApi componentName) ;;
     match api with
     | None =>
         ret {| isError := None;
                content := [ TextItem ("No API documentation found for component '"
                                       ++ componentName
                                       ++ "'. Check the component name or the documentation structure.") ] |}
     | Some api =>
         let apiText := apiTextOf componentName api in
         ret {| isError := None;
                content := [ TextItem (or_else (trim apiText)
                                               "No API details extracted.") ] |}
     end)
    (fun err =>
       let message := messageOf err in
       error [ ("Error in get_heroui_component_api tool for "
                ++ componentName ++ ": " ++ message)%string ] ;;
       ret {| isError := Some true;
              content := [ TextItem ("Error fetching API for "
                                     ++ componentName ++ ": "
                                     ++ message) ] |}).

End Handlers.

(** *** Connecting *)

(** [connect(transport)]: [await this.server.connect(transport)], given
    here by its outcome, and then one informational message.  There is no
    try/catch around it. *)
Definition connect (serverConnect : completion unit) : Tool unit :=
  await serverConnect ;;
  log [ "Minimal MCP Server connected via stdio and ready." ].

End Server.

(* ===================================================================== *)
(** ** Fixtures *)
(* ===================================================================== *)

Module Fixtures.

Import Dom.

Definition page (body : list node) : document :=
  [ Element "html" [] [ Element "head" [] []; Element "body" [] body ] ].

(** A transport that answers every request with a missing page. *)
Definition notFound : Http.Fetch :=
  fun _ =>
    Return {| Http.status := 404; Http.statusText := "Not Found";
              Http.text := Return "<h1>Page not found</h1>" |}.

(** A transport whose server fails on every request. *)
Definition serverError : Http.Fetch :=
  fun _ =>
    Return {| Http.status := 500;
              Http.statusText := "Internal Server Error";
              Http.text := Return EmptyString |}.

(** A transport that cannot connect. *)
Definition offline : Http.Fetch :=
  fun _ => Throw (OtherError "getaddrinfo ENOTFOUND www.heroui.com").

(** A transport that serves one page for every URL. *)
Definition serving (html : string) : Http.Fetch :=
  fun _ =>
    Return {| Http.status := 200; Http.statusText := "OK";
              Http.text := Return html |}.

(** Modelled from the spec: the fixture of section 8 for [getApi("switch")],
    a "Props" heading followed by a table with the one row
    isSelected, boolean, Whether selected, and an empty fourth cell, and
    no "Events" heading. *)
Definition switchPage : document :=
  page
    [ Element "h3" [] [ Text "Props" ];
      Element "table" []
        [ Element "thead" []
            [ Element "tr" []
                [ Element "th" [] [ Text "Prop" ];
                  Element "th" [] [ Text "Type" ];
                  Element "th" [] [ Text "Description" ];
                  Element "th" [] [ Text "Default" ] ] ];
          Element "tbody" []
            [ Element "tr" []
                [ Element "td" [] [ Text "isSelected" ];
                  Element "td" [] [ Text "boolean" ];
                  Element "td" [] [ Text "Whether selected" ];
                  Element "td" [] [] ] ] ] ].

(** Modelled from the spec: the fixture of section 8 for
    [getExamples("button")], one preview container that contains a
    heading "Basic Usage" and a code block of class suffix jsx with the
    text of the example. *)
Definition buttonPage : document :=
  page
    [ Element "div" [ ("data-slot", "component-preview") ]
        [ Element "h3" [] [ Text "Basic Usage" ];
          Element "div" [ ("class", "preview") ]
            [ Element "button" [] [ Text "Click" ] ];
          Element "pre" []
            [ Element "code" [ ("class", "language-jsx") ]
                [ Text "<Button>Click</Button>" ] ] ] ].

(** The same container with the heading put before it, as its sibling:
    an [h3] in [headingBefore], an [h2] in [headingLevelTwo]. *)
Definition headingBefore : document :=
  page
    [ Element "h3" [] [ Text "Basic Usage" ];
      Element "div" [ ("data-slot", "component-preview") ]
        [ Element "div" [ ("class", "preview") ]
            [ Element "button" [] [ Text "Click" ] ];
          Element "pre" []
            [ Element "code" [ ("class", "language-jsx") ]
                [ Text "<Button>Click</Button>" ] ] ] ].

Definition headingLevelTwo : document :=
  page
    [ Element "h2" [] [ Text "Basic Usage" ];
      Element "div" [ ("data-slot", "component-preview") ]
        [ Element "pre" []
            [ Element "code" [ ("class", "language-jsx") ]
                [ Text "<Button>Click</Button>" ] ] ] ].

(** A container whose code block has a class without a hyphen. *)
Definition plainClass : document :=
  page
    [ Element "div" [ ("data-slot", "component-preview") ]
        [ Element "pre" []
            [ Element "code" [ ("class", "hljs") ]
                [ Text "<Button>Click</Button>" ] ] ] ].

(** A page with two preview containers, the first without a code
    block. *)
Definition twoPreviews : document :=
  page
    [ Element "h3" [] [ Text "Disabled" ];
      Element "div" [ ("data-slot", "component-preview") ]
        [ Element "button" [] [ Text "Off" ] ];
      Element "h3" [] [ Text "Sizes" ];
      Text " ";
      Element "div" [ ("data-slot", "component-preview") ]
        [ Element "pre" []
            [ Element "code" [ ("class", "language-tsx") ]
                [ Text " <Button size=sm/> " ] ] ] ].

(** A sidebar with two component links, the root components link, a link
    to another site, and a component link outside the sidebar. *)
Definition introductionPage : document :=
  page
    [ Element "nav" []
        [ Element "ul" []
            [ Element "li" []
                [ Element "a" [ ("href", "/docs/components/") ]
                    [ Text "Components" ] ];
              Element "li" []
                [ Element "a" [ ("href", "/docs/components/accordion") ]
                    [ Text " Accordion " ] ];
              Element "li" []
                [ Element "a" [ ("href", "https://github.com/heroui-inc") ]
                    [ Text "GitHub" ] ];
              Element "li" []
                [ Element "a" [ ("href", "/docs/components/button") ]
                    [ Text "Button" ] ] ] ];
      Element "main" []
        [ Element "a" [ ("href", "/docs/components/card") ]
            [ Text "Card" ] ] ].

(** A page whose only component link is outside any [nav]. *)
Definition linkOutsideNav : document :=
  page
    [ Element "main" []
        [ Element "a" [ ("href", "/docs/components/button") ]
            [ Text "Button" ] ] ].

Definition isSelected : ApiProperty.t :=
  {| ApiProperty.name := "isSelected";
     ApiProperty.type := "boolean";
     ApiProperty.description := Some "Whether selected";
     ApiProperty.defaultValue := Some EmptyString |}.

Definition button : ComponentReference.t :=
  {| ComponentReference.name := "Button";
     ComponentReference.url := "https://www.heroui.com/docs/components/button" |}.

Definition card : ComponentReference.t :=
  {| ComponentReference.name := "Card";
     ComponentReference.url := "https://www.heroui.com/docs/components/card" |}.

End Fixtures.

(* ===================================================================== *)
(** ** The tool adapter always answers with an envelope *)
(* ===================================================================== *)

Import Js Dom Scraper Server.

Ltac run_handler :=
  unfold get_heroui_component_list, get_heroui_component_examples,
    get_heroui_component_api, tryT, bindT, await, log, error,
    sendLoggingMessage, ret;
  cbn beta iota.


(* ===================================================================== *)
(** ** Faults of the transport *)
(* ===================================================================== *)

(** Whatever the transport does, [fetchHtml] throws nothing but a
    [ScrapingError]. *)
Lemma fetchHtml_throws_ScrapingError :
  forall (fetch : Http.Fetch) (url : string) (e : thrown),
    fetchHtml fetch url = Throw e -> isScrapingError e = true.
Proof.
  intros fetch url e. unfold fetchHtml, try_catch, bind.
  destruct (fetch url) as [response|e0].
  - destruct (negb (Http.ok response)); cbn.
    + intros H; inversion H; reflexivity.
    + destruct (Http.text response) as [html|e1]; [discriminate|].
      destruct (isScrapingError e1) eqn:He1; intros H; inversion H; subst;
        auto.
  - destruct (isScrapingError e0) eqn:He0; intros H; inversion H; subst; auto.
Qed.

(** The page was fetched and parsed: the operations return what the scan
    of that page gives. *)
Lemma getComponentExamples_fetched :
  forall fetch load componentName html doc,
    fetchHtml fetch (componentUrl componentName) = Return html ->
    load html = Return doc ->
    getComponentExamples fetch load componentName
    = Return (examplesOf doc).
Proof.
  intros fetch load componentName html doc H Hdoc.
  unfold getComponentExamples. rewrite H. cbn [bind]. rewrite Hdoc.
  reflexivity.
Qed.

Lemma getComponentApi_fetched :
  forall fetch load componentName html doc,
    fetchHtml fetch (componentUrl componentName) = Return html ->
    load html = Return doc ->
    getComponentApi fetch load componentName = Return (apiOf doc).
Proof.
  intros fetch load componentName html doc H Hdoc.
  unfold getComponentApi. rewrite H. cbn [bind]. rewrite Hdoc. reflexivity.
Qed.

Lemma getComponentList_fetched :
  forall fetch load html doc,
    fetchHtml fetch (BASE_URL ++ "/guide/introduction")%string = Return html ->
    load html = Return doc ->
    getComponentList fetch load = Return (componentsOf doc).
Proof.
  intros fetch load html doc H Hdoc.
  unfold getComponentList. rewrite H. cbn [bind]. rewrite Hdoc. reflexivity.
Qed.

(** What the [catch] clauses of the two component operations do with a
    fault raised after the fetch, while the page is parsed and scanned: a
    fault that is not a [ScrapingError] is wrapped in one whose message
    quotes the identifier as it was given. *)
Lemma getComponentExamples_scan_fault :
  forall fetch load componentName html e,
    fetchHtml fetch (componentUrl componentName) = Return html ->
    load html = Throw e ->
    isScrapingError e = false ->
    getComponentExamples fetch load componentName
    = Throw (ScrapingError ("Failed to get examples for " ++ componentName
                            ++ ": " ++ messageOf e)).
Proof.
  intros fetch load componentName html e H Hdoc He.
  unfold getComponentExamples. rewrite H. cbn [bind]. rewrite Hdoc.
  cbn [bind try_catch]. rewrite He. reflexivity.
Qed.

Lemma getComponentApi_scan_fault :
  forall fetch load componentName html e,
    fetchHtml fetch (componentUrl componentName) = Return html ->
    load html = Throw e ->
    isScrapingError e = false ->
    getComponentApi fetch load componentName
    = Throw (ScrapingError ("Failed to get API for " ++ componentName
                            ++ ": " ++ messageOf e)).
Proof.
  intros fetch load componentName html e H Hdoc He.
  unfold getComponentApi. rewrite H. cbn [bind]. rewrite Hdoc.
  cbn [bind try_catch]. rewrite He. reflexivity.
Qed.

(** What the [catch] clauses of the two component operations do with a
    fault of the fetch: it is returned as the empty result when its
    message contains the text 404, and rethrown as it is otherwise. *)
Lemma getComponentExamples_fault :
  forall fetch load componentName e,
    fetchHtml fetch (componentUrl componentName) = Throw e ->
    getComponentExamples fetch load componentName
    = if includes "404" (messageOf e) then Return [] else Throw e.
Proof.
  intros fetch load componentName e H.
  unfold getComponentExamples. rewrite H. cbn [bind try_catch].
  rewrite (fetchHtml_throws_ScrapingError _ _ _ H).
  destruct (includes "404" (messageOf e)); reflexivity.
Qed.

Lemma getComponentApi_fault :
  forall fetch load componentName e,
    fetchHtml fetch (componentUrl componentName) = Throw e ->
    getComponentApi fetch load componentName
    = if includes "404" (messageOf e) then Return None else Throw e.
Proof.
  intros fetch load componentName e H.
  unfold getComponentApi. rewrite H. cbn [bind try_catch].
  rewrite (fetchHtml_throws_ScrapingError _ _ _ H).
  destruct (includes "404" (messageOf e)); reflexivity.
Qed.

(** Where a returned value comes from: the scan of the fetched page, or
    the empty result of the [catch] clause. *)
Lemma getComponentExamples_returns :
  forall fetch load componentName examples,
    getComponentExamples fetch load componentName = Return examples ->
    examples = []
    \/ exists html doc,
         fetchHtml fetch (componentUrl componentName) = Return html
         /\ load html = Return doc
         /\ examples = examplesOf doc.
Proof.
  intros fetch load componentName examples H.
  unfold getComponentExamples, try_catch, bind in H.
  destruct (fetchHtml fetch (componentUrl componentName)) as [html|e].
  - destruct (load html) as [doc|e] eqn:Hdoc.
    + inversion H; subst. right. eauto.
    + destruct (isScrapingError e && negb (includes "404" (messageOf e)));
        [discriminate|].
      destruct (negb (isScrapingError e)); [discriminate|].
      inversion H. left. reflexivity.
  - destruct (isScrapingError e && negb (includes "404" (messageOf e)));
      [discriminate|].
    destruct (negb (isScrapingError e)); [discriminate|].
    inversion H. left. reflexivity.
Qed.

Lemma getComponentApi_returns :
  forall fetch load componentName api,
    getComponentApi fetch load componentName = Return api ->
    api = None
    \/ exists html doc,
         fetchHtml fetch (componentUrl componentName) = Return html
         /\ load html = Return doc
         /\ api = apiOf doc.
Proof.
  intros fetch load componentName api H.
  unfold getComponentApi, try_catch, bind in H.
  destruct (fetchHtml fetch (componentUrl componentName)) as [html|e].
  - destruct (load html) as [doc|e] eqn:Hdoc.
    + inversion H; subst. right. eauto.
    + destruct (isScrapingError e && negb (includes "404" (messageOf e)));
        [discriminate|].
      destruct (negb (isScrapingError e)); [discriminate|].
      inversion H. left. reflexivity.
  - destruct (isScrapingError e && negb (includes "404" (messageOf e)));
      [discriminate|].
    destruct (negb (isScrapingError e)); [discriminate|].
    inversion H. left. reflexivity.
Qed.

(** C2.  The transport answers 404 Not Found: [getComponentExamples] and
    [getComponentApi] throw the fetch fault instead of returning the empty
    result, because the fault's message carries the status text and not
    the status code the [catch] clauses look for.  Conversely a fault whose
    message happens to contain 404 (here through the URL) is turned into
    the empty result whatever its cause.  [getComponentList] rethrows every
    fault of the fetch. *)
Theorem missing_page_fault_is_rethrown :
  forall load : string -> completion document,
    getComponentExamples Fixtures.notFound load "button"
    = Throw (ScrapingError
               "Failed to fetch https://www.heroui.com/docs/components/button: Not Found")
    /\ getComponentApi Fixtures.notFound load "button"
       = Throw (ScrapingError
                  "Failed to fetch https://www.heroui.com/docs/components/button: Not Found")
    /\ getComponentExamples Fixtures.serverError load "error404" = Return []
    /\ getComponentApi Fixtures.serverError load "error404" = Return None
    /\ getComponentExamples Fixtures.offline load "button"
       = Throw (ScrapingError
                  "Network error fetching https://www.heroui.com/docs/components/button: getaddrinfo ENOTFOUND www.heroui.com")
    /\ (forall fetch e,
           fetchHtml fetch (BASE_URL ++ "/guide/introduction")%string = Throw e ->
           getComponentList fetch load
           = Throw (ScrapingError
                      ("Failed to get component list: " ++ messageOf e))).
Proof.
  intros load. repeat split; try reflexivity.
  intros fetch e H. unfold getComponentList. rewrite H. reflexivity.
Qed.

(* ===================================================================== *)
(** ** The result of getComponentApi *)
(* ===================================================================== *)

Lemma apiOf_absent_iff : forall doc,
    apiOf doc = None
    <-> ComponentApi.props (scanned doc) = []
        /\ ComponentApi.events (scanned doc) = [].
Proof.
  intros doc. unfold apiOf.
  destruct (ComponentApi.props (scanned doc)) as [|p ps];
    destruct (ComponentApi.events (scanned doc)) as [|e es]; cbn;
    split; intros H; auto; try discriminate;
    destruct H as [H1 H2]; discriminate.
Qed.

Lemma apiOf_present : forall doc api,
    apiOf doc = Some api ->
    api = scanned doc
    /\ (ComponentApi.props api <> [] \/ ComponentApi.events api <> []).
Proof.
  intros doc api. unfold apiOf.
  destruct (ComponentApi.props (scanned doc)) as [|p ps] eqn:Hp;
    destruct (ComponentApi.events (scanned doc)) as [|e es] eqn:He; cbn;
    intros H; inversion H; subst; split; auto.
  - right. rewrite He. discriminate.
  - left. rewrite Hp. discriminate.
  - left. rewrite Hp. discriminate.
Qed.

(** C3.  Once the page is fetched, parsed and every heading scanned,
    [getComponentApi] returns [null] exactly when both collected sequences
    are empty; when one of them is not, it returns the collected value as
    it is, so with collected props and no events the result has its
    [events] empty and is not [null]. *)
Theorem getComponentApi_absent_iff_both_empty :
  forall (fetch : Http.Fetch) (load : string -> completion document)
         (componentName html : string) (doc : document),
    fetchHtml fetch (componentUrl componentName) = Return html ->
    load html = Return doc ->
    let api := scanned doc in
    (getComponentApi fetch load componentName = Return None
     <-> ComponentApi.props api = [] /\ ComponentApi.events api = [])
    /\ (ComponentApi.props api <> [] \/ ComponentApi.events api <> [] ->
        getComponentApi fetch load componentName = Return (Some api))
    /\ (ComponentApi.props api <> [] -> ComponentApi.events api = [] ->
        getComponentApi fetch load componentName
        = Return (Some {| ComponentApi.props := ComponentApi.props api;
                          ComponentApi.events := [] |})).
Proof.
  intros fetch load componentName html doc Hfetch Hdoc api.
  rewrite (getComponentApi_fetched _ _ _ _ _ Hfetch Hdoc).
  assert (Hsome : ComponentApi.props api <> [] \/ ComponentApi.events api <> []
                  -> apiOf doc = Some api).
  { intros Hne. destruct (apiOf doc) as [a|] eqn:Ha.
    - apply apiOf_present in Ha. destruct Ha as [-> _]. reflexivity.
    - apply apiOf_absent_iff in Ha. destruct Ha as [Hp He].
      destruct Hne as [Hne|Hne]; exfalso; apply Hne; assumption. }
  split; [split|split].
  - intros H. inversion H as [H0]. apply apiOf_absent_iff in H0. exact H0.
  - intros H. f_equal. apply apiOf_absent_iff. exact H.
  - intros Hne. f_equal. apply Hsome. assumption.
  - intros Hp He. f_equal. rewrite (Hsome (or_introl Hp)).
    f_equal. destruct api as [ps es]. cbn in *. subst es. reflexivity.
Qed.

Lemma getComponentApi_absent_iff_both_empty_witness :
  fetchHtml (Fixtures.serving "<h3>Props</h3>") (componentUrl "switch")
  = Return "<h3>Props</h3>"
  /\ getComponentApi (Fixtures.serving "<h3>Props</h3>")
                     (fun _ => Return Fixtures.switchPage) "switch"
     = Return (Some {| ComponentApi.props := [ Fixtures.isSelected ];
                       ComponentApi.events := [] |}).
Proof.
  split; [reflexivity|].
  apply (getComponentApi_absent_iff_both_empty
           (Fixtures.serving "<h3>Props</h3>")
           (fun _ => Return Fixtures.switchPage) "switch" "<h3>Props</h3>"
           Fixtures.switchPage).
  - reflexivity.
  - reflexivity.
  - vm_compute. discriminate.
  - reflexivity.
Defined.

(* ===================================================================== *)
(** ** Rows of a props or events table *)
(* ===================================================================== *)

(** C4, as the claim states it, fails on the fixture of section 8: the
    fourth cell of the row is empty, and the property the extractor
    returns has its [defaultValue] set (to the empty string), not absent. *)
Lemma switch_defaultValue_is_not_absent :
  exists p : ApiProperty.t,
    getComponentApi (Fixtures.serving "<h3>Props</h3>")
                    (fun _ => Return Fixtures.switchPage) "switch"
    = Return (Some {| ComponentApi.props := [ p ];
                      ComponentApi.events := [] |})
    /\ ApiProperty.defaultValue p = Some EmptyString
    /\ ApiProperty.defaultValue p <> None.
Proof.
  exists Fixtures.isSelected. repeat split. discriminate.
Qed.

(** C4, amended.  A body row with fewer than two cells is skipped, in a
    props table and in an events table.  A row with exactly two cells
    gives a property whose [description] and [defaultValue] are absent.
    A row with four cells gives a property with all four fields set, each
    to the trimmed text of its cell; so on the fixture of section 8, whose
    fourth cell is empty, [defaultValue] is the empty string. *)
Theorem rows_populate_by_cell_count :
  forall (api : ComponentApi.t) (tr : selected),
    let cells := findCells [ tr ] in
    (length cells < 2 -> pushProp api tr = api /\ pushEvent api tr = api)
    /\ (length cells = 2 ->
        pushProp api tr
        = {| ComponentApi.props :=
               ComponentApi.props api
               ++ [ {| ApiProperty.name := cellText cells 0;
                       ApiProperty.type := cellText cells 1;
                       ApiProperty.description := None;
                       ApiProperty.defaultValue := None |} ];
             ComponentApi.events := ComponentApi.events api |})
    /\ (length cells = 4 ->
        pushProp api tr
        = {| ComponentApi.props :=
               ComponentApi.props api
               ++ [ {| ApiProperty.name := cellText cells 0;
                       ApiProperty.type := cellText cells 1;
                       ApiProperty.description := Some (cellText cells 2);
                       ApiProperty.defaultValue := Some (cellText cells 3) |} ];
             ComponentApi.events := ComponentApi.events api |})
    /\ getComponentApi (Fixtures.serving "<h3>Props</h3>")
                       (fun _ => Return Fixtures.switchPage) "switch"
       = Return (Some {| ComponentApi.props :=
                           [ {| ApiProperty.name := "isSelected";
                                ApiProperty.type := "boolean";
                                ApiProperty.description :=
                                  Some "Whether selected";
                                ApiProperty.defaultValue :=
                                  Some EmptyString |} ];
                         ComponentApi.events := [] |}).
Proof.
  intros api tr cells.
  split; [|split; [|split]].
  - intros Hlt. unfold pushProp, pushEvent. fold cells.
    destruct (Nat.leb_spec 2 (length cells)) as [Hle|_]; [lia|].
    split; reflexivity.
  - intros Hlen. unfold pushProp. fold cells. rewrite Hlen. reflexivity.
  - intros Hlen. unfold pushProp. fold cells. rewrite Hlen. reflexivity.
  - reflexivity.
Qed.

(* ===================================================================== *)
(** ** The texts the adapter formats *)
(* ===================================================================== *)

(** C5.  The listing of two components, and the API text of a component
    with one property: the lines are joined by the two characters
    backslash and n, not by a line feed, so the text the host receives is
    one line, differs from the text the templates describe, and keeps the
    separator after the props section at its end. *)
Theorem formatted_texts_have_no_line_feed :
  let nl := String LF EmptyString in
  let listing :=
    "Available HeroUI Components:\n- Button (https://www.heroui.com/docs/components/button)\n- Card (https://www.heroui.com/docs/components/card)" in
  let api :=
    "API for switch:\n\n**Props:**\n- `isSelected`: `boolean` - Whether selected\n\n" in
  fst (get_heroui_component_list
         (Return [ Fixtures.button; Fixtures.card ]) [])
  = Return {| isError := None; content := [ TextItem listing ] |}
  /\ includes nl listing = false
  /\ listing
     <> ("Available HeroUI Components:" ++ nl
         ++ "- Button (https://www.heroui.com/docs/components/button)" ++ nl
         ++ "- Card (https://www.heroui.com/docs/components/card)")%string
  /\ fst (get_heroui_component_api
            (fun _ => Return (Some {| ComponentApi.props :=
                                        [ Fixtures.isSelected ];
                                      ComponentApi.events := [] |}))
            "switch" [])
     = Return {| isError := None; content := [ TextItem api ] |}
  /\ includes nl api = false
  /\ api
     <> ("API for switch:" ++ nl ++ nl ++ "**Props:**" ++ nl
         ++ "- `isSelected`: `boolean` - Whether selected")%string.
Proof.
  cbv zeta. split; [reflexivity|]. split; [reflexivity|].
  split; [vm_compute; discriminate|]. split; [reflexivity|].
  split; [reflexivity|]. vm_compute; discriminate.
Qed.

(* ===================================================================== *)
(** ** Validation of the arguments *)
(* ===================================================================== *)

(** C8, as the claim states it, fails: the input schema of the two
    component operations accepts the empty string as [componentName]. *)
Lemma empty_componentName_is_accepted :
  validate componentNameSchema
           (JObject [ ("componentName", JString EmptyString) ]) = true.
Proof. reflexivity. Qed.

(** C8, amended.  The input schema of the two component operations
    accepts the arguments exactly when they are an object whose
    [componentName] is a string, whatever its length: the empty string
    passes too, while a missing name or a name of another type is
    rejected. *)
Theorem componentName_must_be_a_string :
  forall args : JsValue,
    validate componentNameSchema args = true
    <-> exists fields s,
          args = JObject fields
          /\ property "componentName" fields = JString s.
Proof.
  intros args. unfold validate, componentNameSchema. split.
  - destruct args as [| | b | n | s | fields]; try discriminate.
    cbn. destruct (property "componentName" fields) eqn:Hp;
      try discriminate.
    intros _. eauto.
  - intros (fields & s & -> & Hp). cbn. rewrite Hp. reflexivity.
Qed.

(* ===================================================================== *)
(** ** Facts about strings *)
(* ===================================================================== *)

Section StringFacts.

Local Open Scope string_scope.

Lemma append_assoc : forall a b c : string, (a ++ b) ++ c = a ++ (b ++ c).
Proof.
  induction a as [|x a IH]; intros b c; cbn; [reflexivity|].
  rewrite IH. reflexivity.
Qed.

Lemma prefix_append : forall p r : string, String.prefix p (p ++ r) = true.
Proof.
  induction p as [|x p IH]; intros r; cbn.
  - destruct r; reflexivity.
  - destruct (ascii_dec x x) as [_|Hne]; [apply IH|].
    exfalso; apply Hne; reflexivity.
Qed.

Lemma includes_cons : forall sub c s,
    includes sub s = true -> includes sub (String c s) = true.
Proof.
  intros sub c s H. cbn [includes]. rewrite H. apply orb_true_r.
Qed.

Lemma includes_prefix : forall sub s,
    String.prefix sub s = true -> includes sub s = true.
Proof.
  intros sub [|c s] H; cbn [includes]; rewrite H; reflexivity.
Qed.

Lemma includes_append : forall a sub b : string,
    includes sub (a ++ sub ++ b) = true.
Proof.
  induction a as [|x a IH]; intros sub b; cbn [append].
  - apply includes_prefix, prefix_append.
  - apply includes_cons, IH.
Qed.

Lemma truthy_append_cons : forall (a : string) c b,
    truthy (a ++ String c b) = true.
Proof. intros [|x a] c b; reflexivity. Qed.

(** Trimming the end stops at a character that is not white space. *)
Lemma trimEnd_keeps : forall (a : string) (c : ascii) (b : string),
    is_white c = false ->
    exists b', trimEnd (a ++ String c b) = a ++ String c b'.
Proof.
  induction a as [|x a IH]; intros c b Hc.
  - exists (trimEnd b). cbn. rewrite Hc. reflexivity.
  - destruct (IH c b Hc) as [b' Hb']. exists b'.
    cbn [append trimEnd]. rewrite Hb'.
    rewrite truthy_append_cons. cbn. rewrite andb_false_r. reflexivity.
Qed.

Lemma trim_nonwhite_head : forall (c : ascii) (s : string),
    is_white c = false -> trim (String c s) = String c (trimEnd s).
Proof.
  intros c s Hc. unfold trim. cbn [trimStart]. rewrite Hc.
  cbn [trimEnd]. rewrite Hc. reflexivity.
Qed.

(** A piece that ends with a character that is not white space survives
    trimming when the string starts with such a character too. *)
Lemma includes_trim : forall (c0 : ascii) (pre sub : string) (c : ascii)
                             (post : string),
    is_white c0 = false -> is_white c = false ->
    includes (sub ++ String c EmptyString)
             (trim (String c0 (pre ++ (sub ++ String c EmptyString) ++ post)))
    = true.
Proof.
  intros c0 pre sub c post Hc0 Hc.
  rewrite trim_nonwhite_head by assumption.
  apply includes_cons.
  rewrite (append_assoc sub). cbn [append].
  rewrite <- (append_assoc pre sub).
  destruct (trimEnd_keeps (pre ++ sub) c post Hc) as [b' ->].
  rewrite (append_assoc pre sub).
  change (String c b') with ((String c EmptyString) ++ b').
  rewrite <- (append_assoc sub).
  apply includes_append.
Qed.

End StringFacts.

(* ===================================================================== *)
(** ** The API text is never empty *)
(* ===================================================================== *)

Section ApiText.

Local Open Scope string_scope.

Lemma props_header_survives : forall x rest : string,
    includes "**Props:**" (trim (String "A" x ++ "**Props:**\n" ++ rest))
    = true.
Proof.
  intros x rest.
  exact (includes_trim "A" x "**Props:*" "*" ("\n" ++ rest)
                       eq_refl eq_refl).
Qed.

Lemma events_header_survives : forall x rest : string,
    includes "**Events:**" (trim (String "A" x ++ "**Events:**\n" ++ rest))
    = true.
Proof.
  intros x rest.
  exact (includes_trim "A" x "**Events:*" "*" ("\n" ++ rest)
                       eq_refl eq_refl).
Qed.

(** The text starts with the banner, whatever the sections. *)
Lemma apiTextOf_banner : forall componentName api,
    exists rest, apiTextOf componentName api = String "A" rest.
Proof.
  intros componentName api. unfold apiTextOf.
  destruct (0 <? length (ComponentApi.props api))%nat;
    destruct (0 <? length (ComponentApi.events api))%nat;
    cbn; eexists; reflexivity.
Qed.

Lemma trim_apiTextOf_truthy : forall componentName api,
    truthy (trim (apiTextOf componentName api)) = true.
Proof.
  intros componentName api.
  destruct (apiTextOf_banner componentName api) as [rest ->].
  rewrite trim_nonwhite_head by reflexivity. reflexivity.
Qed.

Lemma apiTextOf_has_section : forall componentName api,
    ComponentApi.props api <> [] \/ ComponentApi.events api <> [] ->
    includes "**Props:**" (trim (apiTextOf componentName api))
    || includes "**Events:**" (trim (apiTextOf componentName api))
    = true.
Proof.
  intros componentName [ps es] H. unfold apiTextOf.
  cbn [ComponentApi.props ComponentApi.events] in *.
  change ("API for " ++ componentName ++ ":\n\n")
    with (String "A" ("PI for " ++ componentName ++ ":\n\n")).
  set (x := "PI for " ++ componentName ++ ":\n\n").
  apply orb_true_iff.
  destruct ps as [|p ps]; destruct es as [|e es];
    cbn [length Nat.ltb Nat.leb].
  - destruct H as [H|H]; exfalso; apply H; reflexivity.
  - right. rewrite !append_assoc. apply events_header_survives.
  - left. rewrite !append_assoc. apply props_header_survives.
  - left. rewrite !append_assoc. apply props_header_survives.
Qed.

End ApiText.

(** C9.  When [getComponentApi] returns a value that is not [null], one
    of its two sequences is not empty; the text the adapter builds from it
    then contains a Props or an Events section, is not empty once trimmed,
    and is the text of the envelope: the fallback text is never used. *)
Theorem api_text_fallback_is_unreachable :
  forall (fetch : Http.Fetch) (load : string -> completion document)
         (componentName : string) (api : ComponentApi.t)
         (l : list LoggingMessage),
    getComponentApi fetch load componentName = Return (Some api) ->
    let apiText := apiTextOf componentName api in
    (ComponentApi.props api <> [] \/ ComponentApi.events api <> [])
    /\ includes "**Props:**" (trim apiText)
       || includes "**Events:**" (trim apiText) = true
    /\ trim apiText <> EmptyString
    /\ or_else (trim apiText) "No API details extracted." = trim apiText
    /\ fst (get_heroui_component_api (getComponentApi fetch load)
                                     componentName l)
       = Return {| isError := None;
                   content := [ TextItem (trim apiText) ] |}.
Proof.
  intros fetch load componentName api l Hapi apiText.
  assert (Hne : ComponentApi.props api <> []
                \/ ComponentApi.events api <> []).
  { destruct (getComponentApi_returns _ _ _ _ Hapi)
      as [H0|(html & doc & _ & _ & H0)]; [discriminate|].
    symmetry in H0. apply apiOf_present in H0. apply H0. }
  assert (Htruthy : truthy (trim apiText) = true)
    by apply trim_apiTextOf_truthy.
  assert (Hor : or_else (trim apiText) "No API details extracted."
                = trim apiText).
  { unfold or_else. rewrite Htruthy. reflexivity. }
  split; [exact Hne|]. split; [apply apiTextOf_has_section; exact Hne|].
  split; [intros E; rewrite E in Htruthy; discriminate|].
  split; [exact Hor|].
  run_handler. rewrite Hapi. cbn. fold apiText. rewrite Hor. reflexivity.
Qed.

Lemma api_text_fallback_is_unreachable_witness :
  getComponentApi (Fixtures.serving "<h3>Props</h3>")
                  (fun _ => Return Fixtures.switchPage) "switch"
  = Return (Some {| ComponentApi.props := [ Fixtures.isSelected ];
                    ComponentApi.events := [] |})
  /\ fst (get_heroui_component_api
            (getComponentApi (Fixtures.serving "<h3>Props</h3>")
                             (fun _ => Return Fixtures.switchPage))
            "switch" [])
     = Return {| isError := None;
                 content :=
                   [ TextItem "API for switch:\n\n**Props:**\n- `isSelected`: `boolean` - Whether selected\n\n" ] |}.
Proof.
  split; [reflexivity|].
  apply (api_text_fallback_is_unreachable
           (Fixtures.serving "<h3>Props</h3>")
           (fun _ => Return Fixtures.switchPage) "switch"
           {| ComponentApi.props := [ Fixtures.isSelected ];
              ComponentApi.events := [] |} []).
  reflexivity.
Defined.

(* ===================================================================== *)
(** ** The identifier counts only through its lower case *)
(* ===================================================================== *)

Lemma componentUrl_lower : forall a b : string,
    toLowerCase a = toLowerCase b -> componentUrl a = componentUrl b.
Proof.
  intros a b H. unfold componentUrl. rewrite H. reflexivity.
Qed.

(** C10, as the claim states it, fails: the page is fetched, and a fault
    is raised while it is parsed or scanned; the [catch] clause wraps it
    in a message that quotes the identifier as it was given, so two
    identifiers that differ only in case get different faults under one
    transport. *)
Lemma scan_fault_quotes_identifier_as_given :
  let fetch := Fixtures.serving "<h3>Basic Usage</h3>" in
  let load := fun _ : string =>
                @Throw document
                       (OtherError "Maximum call stack size exceeded") in
  toLowerCase "Button" = toLowerCase "button"
  /\ getComponentExamples fetch load "Button"
     = Throw (ScrapingError
                "Failed to get examples for Button: Maximum call stack size exceeded")
  /\ getComponentExamples fetch load "button"
     = Throw (ScrapingError
                "Failed to get examples for button: Maximum call stack size exceeded")
  /\ getComponentExamples fetch load "Button"
     <> getComponentExamples fetch load "button"
  /\ getComponentApi fetch load "Button"
     <> getComponentApi fetch load "button".
Proof.
  cbv zeta. repeat split; try reflexivity; vm_compute; discriminate.
Qed.

(** C10, amended.  For two identifiers with the same lower case and one
    transport: the two operations ask the transport for the same URL, the
    components root followed by the lower-cased identifier, and what they
    return or throw depends on the transport through its answer at that
    URL only; [getComponentExamples] returns (or throws) the same for
    both, and so does [getComponentApi], unless a fault that is not a
    [ScrapingError] is raised while the fetched page is parsed or scanned.
    Such a fault is thrown on in a message that quotes the identifier as
    it was given, which is where the case shows. *)
Theorem identifier_case_shows_only_in_scan_faults :
  forall (fetch : Http.Fetch) (load : string -> completion document)
         (a b : string),
    toLowerCase a = toLowerCase b ->
    ((forall html e,
         fetchHtml fetch (componentUrl a) = Return html ->
         load html = Throw e -> isScrapingError e = true) ->
     getComponentExamples fetch load a = getComponentExamples fetch load b
     /\ getComponentApi fetch load a = getComponentApi fetch load b)
    /\ (forall html e,
           fetchHtml fetch (componentUrl a) = Return html ->
           load html = Throw e -> isScrapingError e = false ->
           getComponentExamples fetch load a
           = Throw (ScrapingError ("Failed to get examples for " ++ a
                                   ++ ": " ++ messageOf e))
           /\ getComponentExamples fetch load b
              = Throw (ScrapingError ("Failed to get examples for " ++ b
                                      ++ ": " ++ messageOf e))
           /\ getComponentApi fetch load a
              = Throw (ScrapingError ("Failed to get API for " ++ a
                                      ++ ": " ++ messageOf e))
           /\ getComponentApi fetch load b
              = Throw (ScrapingError ("Failed to get API for " ++ b
                                      ++ ": " ++ messageOf e)))
    /\ (forall fetch' : Http.Fetch,
           fetch' ("https://www.heroui.com/docs/components/"
                   ++ toLowerCase a)%string
           = fetch ("https://www.heroui.com/docs/components/"
                    ++ toLowerCase a)%string ->
           getComponentExamples fetch' load a
           = getComponentExamples fetch load a
           /\ getComponentApi fetch' load a = getComponentApi fetch load a).
Proof.
  intros fetch load a b H.
  assert (Hurl : componentUrl a = componentUrl b)
    by exact (componentUrl_lower a b H).
  assert (Hsame : forall f : Http.Fetch,
             fetchHtml f (componentUrl a) = fetchHtml fetch (componentUrl b) ->
             (forall html e,
                 fetchHtml fetch (componentUrl a) = Return html ->
                 load html = Throw e -> isScrapingError e = true) ->
             getComponentExamples f load a = getComponentExamples fetch load b
             /\ getComponentApi f load a = getComponentApi fetch load b).
  { intros f Hf Hscan. unfold getComponentExamples, getComponentApi.
    rewrite Hf. rewrite Hurl in Hscan.
    destruct (fetchHtml fetch (componentUrl b)) as [html|e] eqn:Hfetch.
    - cbn [bind]. destruct (load html) as [doc|e] eqn:Hdoc.
      + split; reflexivity.
      + cbn [bind try_catch]. rewrite (Hscan html e eq_refl Hdoc).
        cbn [negb andb].
        destruct (includes "404" (messageOf e)); split; reflexivity.
    - apply fetchHtml_throws_ScrapingError in Hfetch.
      cbn [bind try_catch]. rewrite Hfetch. cbn [negb andb].
      destruct (includes "404" (messageOf e)); split; reflexivity. }
  split; [|split].
  - intros Hscan. apply Hsame; [rewrite Hurl; reflexivity|exact Hscan].
  - intros html e Hfetch Hdoc He.
    assert (Hfetchb : fetchHtml fetch (componentUrl b) = Return html)
      by (rewrite <- Hurl; exact Hfetch).
    repeat split.
    + exact (getComponentExamples_scan_fault _ _ _ _ _ Hfetch Hdoc He).
    + exact (getComponentExamples_scan_fault _ _ _ _ _ Hfetchb Hdoc He).
    + exact (getComponentApi_scan_fault _ _ _ _ _ Hfetch Hdoc He).
    + exact (getComponentApi_scan_fault _ _ _ _ _ Hfetchb Hdoc He).
  - intros fetch' Hf.
    assert (Hf' : fetchHtml fetch' (componentUrl a)
                  = fetchHtml fetch (componentUrl a)).
    { unfold fetchHtml.
      change (componentUrl a)
        with ("https://www.heroui.com/docs/components/" ++ toLowerCase a)%string.
      rewrite Hf. reflexivity. }
    unfold getComponentExamples, getComponentApi. rewrite Hf'.
    split; reflexivity.
Qed.

Lemma identifier_case_shows_only_in_scan_faults_witness :
  toLowerCase "Button" = toLowerCase "button"
  /\ getComponentExamples (Fixtures.serving "<h3>Basic Usage</h3>")
                          (fun _ => Return Fixtures.buttonPage) "Button"
     = getComponentExamples (Fixtures.serving "<h3>Basic Usage</h3>")
                            (fun _ => Return Fixtures.buttonPage) "button"
  /\ getComponentApi (Fixtures.serving "<h3>Basic Usage</h3>")
                     (fun _ => Return Fixtures.buttonPage) "Button"
     = getComponentApi (Fixtures.serving "<h3>Basic Usage</h3>")
                       (fun _ => Return Fixtures.buttonPage) "button".
Proof.
  split; [reflexivity|].
  refine (proj1 (identifier_case_shows_only_in_scan_faults
                   (Fixtures.serving "<h3>Basic Usage</h3>")
                   (fun _ => Return Fixtures.buttonPage) "Button" "button"
                   eq_refl) _).
  intros html e Hfetch Hload. discriminate Hload.
Defined.

(* ===================================================================== *)
(** ** Code examples *)
(* ===================================================================== *)

Section Segments.

Local Open Scope string_scope.

Variable sep : ascii.

Lemma split_not_nil : forall s, split sep s <> [].
Proof.
  intros [|c r]; cbn; [discriminate|].
  destruct (Ascii.eqb c sep); [discriminate|].
  destruct (split sep r); discriminate.
Qed.

Lemma pop_cons : forall (x : string) (l : list string),
    l <> [] -> pop (x :: l) = pop l.
Proof.
  intros x l Hl. unfold pop. cbn [rev].
  destruct (rev l) as [|y r] eqn:Hr; [|reflexivity].
  exfalso. apply Hl. rewrite <- (rev_involutive l), Hr. reflexivity.
Qed.

(** A string without the separator is one segment. *)
Lemma split_without_separator : forall s,
    includes (String sep EmptyString) s = false -> split sep s = [ s ].
Proof.
  induction s as [|c r IH]; intros H; [reflexivity|].
  cbn [includes String.prefix] in H.
  apply orb_false_iff in H. destruct H as [Hhead Htail].
  cbn [split]. destruct (Ascii.eqb_spec c sep) as [->|Hne].
  - destruct (ascii_dec sep sep) as [_|Hne]; [|exfalso; apply Hne; reflexivity].
    destruct r; discriminate.
  - rewrite (IH Htail). reflexivity.
Qed.

(** After a separator there are at least two segments. *)
Lemma split_two : forall p suf,
    exists h x t, split sep (p ++ String sep suf) = h :: x :: t.
Proof.
  induction p as [|c p IH]; intros suf; cbn [append split].
  - rewrite Ascii.eqb_refl.
    destruct (split sep suf) as [|x t] eqn:E;
      [exfalso; apply (split_not_nil _ E)|].
    eauto.
  - destruct (IH suf) as (h & x & t & ->).
    destruct (Ascii.eqb c sep); eauto.
Qed.

(** The last segment is what follows the last separator. *)
Lemma pop_split_suffix : forall p suf,
    includes (String sep EmptyString) suf = false ->
    pop (split sep (p ++ String sep suf)) = Some suf.
Proof.
  induction p as [|c p IH]; intros suf H; cbn [append split].
  - rewrite Ascii.eqb_refl, pop_cons by apply split_not_nil.
    rewrite (split_without_separator _ H). reflexivity.
  - specialize (IH suf H).
    destruct (split_two p suf) as (h & x & t & E). rewrite E in *.
    destruct (Ascii.eqb c sep).
    + rewrite pop_cons by discriminate. exact IH.
    + rewrite pop_cons by discriminate.
      rewrite pop_cons in IH by discriminate. exact IH.
Qed.

End Segments.

Lemma fold_pushExample : forall previews examples,
    fold_left pushExample previews examples
    = examples ++ flat_map (pushExample []) previews.
Proof.
  induction previews as [|d ds IH]; intros examples; cbn [fold_left flat_map].
  - rewrite app_nil_r. reflexivity.
  - rewrite IH, app_assoc. f_equal.
    unfold pushExample. destruct (truthy _); cbn.
    + reflexivity.
    + rewrite app_nil_r. reflexivity.
Qed.

(** Looking backwards from an element, siblings that are not [h3]
    headings are passed over and the first [h3] met is the one found. *)
Lemma prevAll_nearest : forall anc skipped h rest after,
    forallb (fun n => negb (is_tag "h3" n)) skipped = true ->
    is_tag "h3" h = true ->
    exists found more,
      filter (fun x => is_tag "h3" (el x))
             (prevElements anc (skipped ++ h :: rest) after)
      = found :: more
      /\ el found = h.
Proof.
  intros anc skipped. induction skipped as [|n ns IH];
    intros h rest after Hskip Hh; cbn [app prevElements].
  - assert (He : is_element h = true) by (destruct h; [reflexivity|discriminate]).
    rewrite He. cbn [app filter el]. rewrite Hh. eauto.
  - cbn [forallb] in Hskip. apply andb_true_iff in Hskip.
    destruct Hskip as [Hn Hns]. apply negb_true_iff in Hn.
    rewrite filter_app.
    assert (Hnone : filter (fun x => is_tag "h3" (el x))
                           (if is_element n
                            then [ {| el := n; prevSiblings := ns ++ h :: rest;
                                      nextSiblings := after;
                                      ancestors := anc |} ]
                            else []) = []).
    { destruct (is_element n); cbn; [rewrite Hn|]; reflexivity. }
    rewrite Hnone. cbn [app]. apply IH; assumption.
Qed.

Lemma prevAll_none : forall anc prevs after,
    forallb (fun n => negb (is_tag "h3" n)) prevs = true ->
    filter (fun x => is_tag "h3" (el x)) (prevElements anc prevs after) = [].
Proof.
  intros anc prevs. induction prevs as [|n ns IH]; intros after H;
    cbn [prevElements]; [reflexivity|].
  cbn [forallb] in H. apply andb_true_iff in H. destruct H as [Hn Hns].
  apply negb_true_iff in Hn. rewrite filter_app, (IH _ Hns), app_nil_r.
  destruct (is_element n); cbn; [rewrite Hn|]; reflexivity.
Qed.

(** C7, as the claim states it, fails.  On the fixture of section 8,
    where the container contains the heading, the one entry has no title:
    the title is looked for among the siblings before the container.  A
    heading before the container that is not an [h3] gives no title
    either, and a class without a hyphen is taken whole as the language
    instead of the default. *)
Lemma section8_example_has_no_title :
  getComponentExamples (Fixtures.serving "<h3>Basic Usage</h3>")
                       (fun _ => Return Fixtures.buttonPage) "button"
  = Return [ {| ComponentExample.title := None;
                ComponentExample.code := "<Button>Click</Button>";
                ComponentExample.language := "jsx" |} ]
  /\ getComponentExamples (Fixtures.serving "<h3>Basic Usage</h3>")
                          (fun _ => Return Fixtures.buttonPage) "button"
     <> Return [ {| ComponentExample.title := Some "Basic Usage";
                    ComponentExample.code := "<Button>Click</Button>";
                    ComponentExample.language := "jsx" |} ]
  /\ map ComponentExample.title (examplesOf Fixtures.headingLevelTwo)
     = [ None ]
  /\ map ComponentExample.language (examplesOf Fixtures.plainClass)
     = [ "hljs" ].
Proof.
  split; [reflexivity|]. split; [vm_compute; discriminate|].
  split; reflexivity.
Qed.

(** C7, amended.  The examples are those of the preview containers, one
    container at a time and in document order: a container gives one
    example when the trimmed text of its nested code block is not empty,
    and none otherwise, whatever the other containers give.  The title is
    the trimmed text of the nearest [h3] among the siblings before the
    container, absent when there is no such sibling or when that text is
    empty.  The language is what follows the last hyphen of the code
    block's class, or the whole class when it has no hyphen, and the
    default [typescript] when there is no class or when that text is
    empty.  On the fixture of section 8, whose heading is inside the
    container, the one entry has no title, the code of the block and jsx;
    with the heading as the [h3] before the container its title is Basic
    Usage. *)
Theorem examples_come_from_each_preview :
  (forall doc : document,
      examplesOf doc
      = flat_map
          (fun previewDiv =>
             let codeElement := findPreCode [ previewDiv ] in
             let code := trim (text codeElement) in
             if truthy code
             then [ {| ComponentExample.title :=
                         or_undefined
                           (trim (text (first (prevAll "h3" previewDiv))));
                       ComponentExample.code := code;
                       ComponentExample.language := languageOf codeElement |} ]
             else [])
          (previewDivs doc))
  /\ (forall examples previewDiv,
         trim (text (findPreCode [ previewDiv ])) = EmptyString ->
         pushExample examples previewDiv = examples)
  /\ (forall examples previewDiv,
         trim (text (findPreCode [ previewDiv ])) <> EmptyString ->
         length (pushExample examples previewDiv) = S (length examples))
  /\ (forall (s : selected) skipped h rest,
         prevSiblings s = skipped ++ h :: rest ->
         forallb (fun n => negb (is_tag "h3" n)) skipped = true ->
         is_tag "h3" h = true ->
         (trim (textContent h) <> EmptyString ->
          or_undefined (trim (text (first (prevAll "h3" s))))
          = Some (trim (textContent h)))
         /\ (trim (textContent h) = EmptyString ->
             or_undefined (trim (text (first (prevAll "h3" s)))) = None))
  /\ (forall s : selected,
         forallb (fun n => negb (is_tag "h3" n)) (prevSiblings s) = true ->
         or_undefined (trim (text (first (prevAll "h3" s)))) = None)
  /\ (forall codeElement,
         attrOf "class" codeElement = None ->
         languageOf codeElement = "typescript")
  /\ (forall codeElement (pre suf : string),
         attrOf "class" codeElement = Some (pre ++ "-" ++ suf)%string ->
         includes "-" suf = false ->
         (suf <> EmptyString -> languageOf codeElement = suf)
         /\ (suf = EmptyString -> languageOf codeElement = "typescript"))
  /\ (forall codeElement (cls : string),
         attrOf "class" codeElement = Some cls ->
         includes "-" cls = false ->
         (cls <> EmptyString -> languageOf codeElement = cls)
         /\ (cls = EmptyString -> languageOf codeElement = "typescript"))
  /\ getComponentExamples (Fixtures.serving "<h3>Basic Usage</h3>")
                          (fun _ => Return Fixtures.buttonPage) "button"
     = Return [ {| ComponentExample.title := None;
                   ComponentExample.code := "<Button>Click</Button>";
                   ComponentExample.language := "jsx" |} ]
  /\ getComponentExamples (Fixtures.serving "<h3>Basic Usage</h3>")
                          (fun _ => Return Fixtures.headingBefore) "button"
     = Return [ {| ComponentExample.title := Some "Basic Usage";
                   ComponentExample.code := "<Button>Click</Button>";
                   ComponentExample.language := "jsx" |} ]
  /\ examplesOf Fixtures.twoPreviews
     = [ {| ComponentExample.title := Some "Sizes";
            ComponentExample.code := "<Button size=sm/>";
            ComponentExample.language := "tsx" |} ].
Proof.
  assert (Hor : forall s d : string,
             (s <> EmptyString -> or_else s d = s)
             /\ (s = EmptyString -> or_else s d = d)).
  { intros [|c r] d; split; intros H; try reflexivity; try discriminate.
    exfalso; apply H; reflexivity. }
  assert (Hundef : forall s : string,
             (s <> EmptyString -> or_undefined s = Some s)
             /\ (s = EmptyString -> or_undefined s = None)).
  { intros [|c r]; split; intros H; try reflexivity; try discriminate.
    exfalso; apply H; reflexivity. }
  split; [|split; [|split; [|split; [|split; [|split; [|split;
    [|split; [|split; [|split]]]]]]]]].
  - intros doc. unfold examplesOf. rewrite fold_pushExample. cbn [app].
    apply flat_map_ext. intros previewDiv. unfold pushExample. cbv zeta.
    destruct (truthy _); reflexivity.
  - intros examples previewDiv H. unfold pushExample. rewrite H. reflexivity.
  - intros examples previewDiv H. unfold pushExample.
    destruct (trim (text (findPreCode [ previewDiv ]))) as [|c r];
      [exfalso; apply H; reflexivity|].
    cbn [truthy]. rewrite length_app. cbn [length]. lia.
  - intros s skipped h rest Hprev Hskip Hh.
    assert (Htext : text (first (prevAll "h3" s)) = textContent h).
    { unfold prevAll. rewrite Hprev.
      destruct (prevAll_nearest (ancestors s) skipped h rest
                                (el s :: nextSiblings s) Hskip Hh)
        as (found & more & -> & Hfound).
      cbn [first]. unfold text. cbn [map String.concat]. rewrite Hfound.
      reflexivity. }
    rewrite Htext. apply Hundef.
  - intros s H. unfold prevAll. rewrite prevAll_none by assumption.
    reflexivity.
  - intros codeElement H. unfold languageOf. rewrite H. reflexivity.
  - intros codeElement pre suf Hclass Hsuf. unfold languageOf.
    rewrite Hclass. cbn [append].
    rewrite pop_split_suffix by assumption. apply Hor.
  - intros codeElement cls Hclass Hcls. unfold languageOf.
    rewrite Hclass, (split_without_separator _ _ Hcls). apply Hor.
  - reflexivity.
  - reflexivity.
  - reflexivity.
Qed.

(* ===================================================================== *)
(** ** The component list *)
(* ===================================================================== *)

Lemma prefix_split : forall p s : string,
    String.prefix p s = true -> exists r, s = (p ++ r)%string.
Proof.
  induction p as [|x p IH]; intros s H.
  - exists s. reflexivity.
  - destruct s as [|y s]; cbn in H; [discriminate|].
    destruct (ascii_dec x y) as [->|_]; [|discriminate].
    destruct (IH s H) as [r ->]. exists r. reflexivity.
Qed.

(** What the selector guarantees of every link it matches. *)
Lemma navComponentLinks_href : forall doc link,
    In link (navComponentLinks doc) ->
    hasAncestor "nav" link = true
    /\ is_tag "a" (el link) = true
    /\ exists rest,
        attr "href" (el link) = Some ("/docs/components/" ++ rest)%string.
Proof.
  intros doc link H. unfold navComponentLinks in H.
  apply filter_In in H. destruct H as [_ H].
  apply andb_true_iff in H. destruct H as [H Hhref].
  apply andb_true_iff in H. destruct H as [Ha Hnav].
  repeat split; try assumption.
  destruct (attr "href" (el link)) as [h|]; [|discriminate].
  destruct (prefix_split _ _ Hhref) as [rest ->]. eauto.
Qed.

Lemma pushComponent_matched : forall components link rest,
    attr "href" (el link) = Some ("/docs/components/" ++ rest)%string ->
    pushComponent components link
    = if truthy (trim (text [ link ]))
         && negb (endsWith "/components/" ("/docs/components/" ++ rest))
      then components
             ++ [ {| ComponentReference.name := trim (text [ link ]);
                     ComponentReference.url :=
                       ("https://www.heroui.com"
                        ++ "/docs/components/" ++ rest)%string |} ]
      else components.
Proof.
  intros components link rest H. unfold pushComponent. rewrite H.
  reflexivity.
Qed.

(** C6, as the claim states it, fails: an anchor whose destination begins
    with the components root, which is not the root link and has a visible
    text, is not listed when it does not lie inside a [nav] element. *)
Lemma link_outside_nav_is_not_listed :
  let link :=
    Element "a" [ ("href", "/docs/components/button") ] [ Text "Button" ] in
  In link (map el (elementsOf Fixtures.linkOutsideNav))
  /\ attr "href" link = Some "/docs/components/button"
  /\ startsWith "/docs/components/" "/docs/components/button" = true
  /\ endsWith "/components/" "/docs/components/button" = false
  /\ trim (textContent link) = "Button"
  /\ getComponentList (Fixtures.serving "<main></main>")
                      (fun _ => Return Fixtures.linkOutsideNav)
     = Return [].
Proof.
  cbv zeta. split; [|repeat split].
  cbn. do 4 right. left. reflexivity.
Qed.

(** C6, amended.  Once the introduction page is fetched and parsed,
    [getComponentList] returns, in document order, one entry for each
    anchor that lies inside a [nav] element, whose destination begins with
    the components root and does not end with the root itself, and whose
    trimmed text is not empty: the name is that text and the url is the
    destination put after the fixed origin, so every name is non-empty,
    every url is absolute and none is the root link.  When no such anchor
    is found the result is the empty sequence, not an error. *)
Theorem getComponentList_lists_nav_links :
  forall (fetch : Http.Fetch) (load : string -> completion document)
         (html : string) (doc : document),
    fetchHtml fetch (BASE_URL ++ "/guide/introduction")%string = Return html ->
    load html = Return doc ->
    let links := navComponentLinks doc in
    let href := fun link => match attr "href" (el link) with
                            | Some h => h
                            | None => EmptyString
                            end in
    let name := fun link => trim (text [ link ]) in
    exists components,
      getComponentList fetch load = Return components
      /\ components
         = map (fun link =>
                  {| ComponentReference.name := name link;
                     ComponentReference.url :=
                       ("https://www.heroui.com" ++ href link)%string |})
               (filter (fun link =>
                          truthy (name link)
                          && negb (endsWith "/components/" (href link)))
                       links)
      /\ Forall (fun c =>
                   ComponentReference.name c <> EmptyString
                   /\ startsWith "https://www.heroui.com/docs/components/"
                                 (ComponentReference.url c) = true
                   /\ ComponentReference.url c
                      <> "https://www.heroui.com/docs/components/")
                components
      /\ (links = [] -> components = []).
Proof.
  intros fetch load html doc Hfetch Hdoc links href name.
  rewrite (getComponentList_fetched _ _ _ _ Hfetch Hdoc).
  eexists. split; [reflexivity|].
  assert (Hfold : forall ls acc,
             (forall link, In link ls -> In link links) ->
             fold_left pushComponent ls acc
             = acc
               ++ map (fun link =>
                         {| ComponentReference.name := name link;
                            ComponentReference.url :=
                              ("https://www.heroui.com" ++ href link)%string |})
                      (filter (fun link =>
                                 truthy (name link)
                                 && negb (endsWith "/components/" (href link)))
                              ls)).
  { induction ls as [|link ls IH]; intros acc Hin; cbn [fold_left filter map].
    - rewrite app_nil_r. reflexivity.
    - destruct (navComponentLinks_href doc link
                                       (Hin link (or_introl eq_refl)))
        as (_ & _ & rest & Hhref).
      assert (Hh : href link = ("/docs/components/" ++ rest)%string)
        by (unfold href; rewrite Hhref; reflexivity).
      rewrite (pushComponent_matched _ _ _ Hhref).
      rewrite IH by (intros l Hl; apply Hin; right; exact Hl).
      cbn beta. rewrite Hh. change (trim (text [ link ])) with (name link).
      destruct (truthy (name link)
                && negb (endsWith "/components/" ("/docs/components/" ++ rest)));
        cbn [map]; [rewrite <- app_assoc; cbn [app]; rewrite Hh|];
        reflexivity. }
  unfold componentsOf. fold links.
  rewrite (Hfold links [] (fun _ H => H)). cbn [app].
  split; [reflexivity|]. split.
  - apply Forall_forall. intros c Hc.
    apply in_map_iff in Hc. destruct Hc as (link & <- & Hlink).
    apply filter_In in Hlink. destruct Hlink as [Hin Hkeep].
    apply andb_true_iff in Hkeep. destruct Hkeep as [Hname Hroot].
    destruct (navComponentLinks_href doc link Hin)
      as (_ & _ & rest & Hhref).
    cbn [ComponentReference.name ComponentReference.url].
    unfold href in *. rewrite Hhref in *.
    split; [|split].
    + intros E. rewrite E in Hname. discriminate.
    + exact (prefix_append "https://www.heroui.com/docs/components/" rest).
    + intros E. cbn in E. injection E as E. subst rest.
      cbn in Hroot. discriminate.
  - intros ->. reflexivity.
Qed.

Lemma getComponentList_lists_nav_links_witness :
  fetchHtml (Fixtures.serving "<nav></nav>")
            (BASE_URL ++ "/guide/introduction")%string
  = Return "<nav></nav>"
  /\ exists components,
      getComponentList (Fixtures.serving "<nav></nav>")
                       (fun _ => Return Fixtures.introductionPage)
      = Return components
      /\ components
         = [ {| ComponentReference.name := "Accordion";
                ComponentReference.url :=
                  "https://www.heroui.com/docs/components/accordion" |};
             Fixtures.button ].
Proof.
  split; [reflexivity|].
  destruct (getComponentList_lists_nav_links
              (Fixtures.serving "<nav></nav>")
              (fun _ => Return Fixtures.introductionPage) "<nav></nav>"
              Fixtures.introductionPage eq_refl eq_refl)
    as (components & Hreturn & Hcomponents & _).
  exists components. split; [exact Hreturn|].
  rewrite Hcomponents. reflexivity.
Defined.


(* ===================================================================== *)
(** ** Further properties of the transport layer *)
(* ===================================================================== *)

Section MoreStringFacts.

Local Open Scope string_scope.

(** A string that includes a piece splits around it. *)
Lemma includes_split : forall sub s : string,
    includes sub s = true -> exists a b, s = a ++ sub ++ b.
Proof.
  intros sub s. induction s as [|c s IH]; cbn [includes]; intros H.
  - rewrite orb_false_r in H. apply prefix_split in H.
    destruct H as [r Hr]. exists EmptyString, r. exact Hr.
  - apply orb_true_iff in H. destruct H as [H|H].
    + apply prefix_split in H. destruct H as [r Hr].
      exists EmptyString, r. exact Hr.
    + destruct (IH H) as (a & b & ->). exists (String c a), b. reflexivity.
Qed.

(** Text around a string does not hide what it includes. *)
Lemma includes_inside : forall sub a s b : string,
    includes sub s = true -> includes sub (a ++ s ++ b) = true.
Proof.
  intros sub a s b H. destruct (includes_split _ _ H) as (x & y & ->).
  rewrite (append_assoc x), (append_assoc sub), <- (append_assoc a x).
  apply includes_append.
Qed.

Lemma trimStart_head : forall s : string,
    trimStart s = EmptyString
    \/ exists c r, trimStart s = String c r /\ is_white c = false.
Proof.
  induction s as [|c r IH]; cbn [trimStart]; [left; reflexivity|].
  destruct (is_white c) eqn:Hc; [exact IH|]. right. eauto.
Qed.

Lemma trimEnd_idempotent : forall s : string, trimEnd (trimEnd s) = trimEnd s.
Proof.
  induction s as [|c r IH]; [reflexivity|]. cbn [trimEnd].
  destruct (is_white c && negb (truthy (trimEnd r))) eqn:E; [reflexivity|].
  cbn [trimEnd]. rewrite IH, E. reflexivity.
Qed.

Lemma trim_idempotent : forall s : string, trim (trim s) = trim s.
Proof.
  intros s. unfold trim at 2 3.
  destruct (trimStart_head s) as [->|(c & r & -> & Hc)]; [reflexivity|].
  cbn [trimEnd]. rewrite Hc. cbn [andb].
  rewrite trim_nonwhite_head by assumption.
  rewrite trimEnd_idempotent. reflexivity.
Qed.

Lemma truthy_not_empty : forall s : string,
    truthy s = true <-> s <> EmptyString.
Proof.
  intros [|c r]; cbn; split; intros H; try discriminate; try reflexivity.
  exfalso; apply H; reflexivity.
Qed.

End MoreStringFacts.

(** X1.  [fetchHtml] returns a page exactly when the transport answers
    with a status from 200 to 299 and the body of that answer can be
    read; the page returned is that body. *)
Theorem fetchHtml_returns_iff_ok :
  forall (fetch : Http.Fetch) (url html : string),
    fetchHtml fetch url = Return html
    <-> exists r,
          fetch url = Return r
          /\ 200 <= Http.status r <= 299
          /\ Http.text r = Return html.
Proof.
  intros fetch url html. unfold fetchHtml, try_catch, bind, Http.ok. split.
  - destruct (fetch url) as [r|e].
    + destruct (Nat.leb_spec 200 (Http.status r)) as [Hlo|Hlo];
        destruct (Nat.leb_spec (Http.status r) 299) as [Hhi|Hhi]; cbn;
        try discriminate.
      destruct (Http.text r) as [body|e] eqn:Htext.
      * intros H. inversion H; subst. exists r. repeat split; auto.
      * destruct (isScrapingError e); discriminate.
    + destruct (isScrapingError e); discriminate.
  - intros (r & -> & [Hlo Hhi] & Htext).
    destruct (Nat.leb_spec 200 (Http.status r)) as [_|Hlo']; [|lia].
    destruct (Nat.leb_spec (Http.status r) 299) as [_|Hhi']; [|lia].
    cbn. rewrite Htext. reflexivity.
Qed.

Lemma includes_after : forall sub a s : string,
    includes sub s = true -> includes sub (a ++ s)%string = true.
Proof.
  intros sub a s H. induction a as [|c a IH]; cbn [append]; [exact H|].
  apply includes_cons, IH.
Qed.

Lemma includes_trans : forall a b c : string,
    includes a b = true -> includes b c = true -> includes a c = true.
Proof.
  intros a b c Hab Hbc. destruct (includes_split _ _ Hbc) as (x & y & ->).
  apply includes_inside. exact Hab.
Qed.

Lemma fetchHtml_message_includes_url :
  forall (fetch : Http.Fetch) (url : string) (e : thrown),
    fetchHtml fetch url = Throw e -> ownFault fetch url ->
    includes url (messageOf e) = true.
Proof.
  intros fetch url e. unfold fetchHtml, try_catch, bind, ownFault.
  destruct (fetch url) as [r|e0].
  - destruct (Http.ok r); cbn.
    + destruct (Http.text r) as [body|e1]; [discriminate|].
      intros H He1. rewrite He1 in H. inversion H; subst. cbn [messageOf].
      apply (includes_append "Network error fetching " url).
    + intros H _. inversion H; subst. cbn [messageOf].
      apply (includes_append "Failed to fetch " url).
  - intros H He0. rewrite He0 in H. inversion H; subst. cbn [messageOf].
    apply (includes_append "Network error fetching " url).
Qed.

(** X2.  [fetchHtml] names the URL in the fault it throws: for an answer
    outside 200-299 the message is the URL and the status text, and for a
    rejection of the request, or of the reading of the body, by anything
    but a [ScrapingError] it is the URL and the cause's message. *)
Theorem fetchHtml_fault_names_the_url :
  forall (fetch : Http.Fetch) (url : string),
    (forall r, fetch url = Return r -> Http.ok r = false ->
               fetchHtml fetch url
               = Throw (ScrapingError ("Failed to fetch " ++ url ++ ": "
                                       ++ Http.statusText r)))
    /\ (forall e, fetch url = Throw e -> isScrapingError e = false ->
                  fetchHtml fetch url
                  = Throw (ScrapingError ("Network error fetching " ++ url
                                          ++ ": " ++ messageOf e)))
    /\ (forall r e, fetch url = Return r -> Http.ok r = true ->
                    Http.text r = Throw e -> isScrapingError e = false ->
                    fetchHtml fetch url
                    = Throw (ScrapingError ("Network error fetching " ++ url
                                            ++ ": " ++ messageOf e)))
    /\ (forall e, fetchHtml fetch url = Throw e -> ownFault fetch url ->
                  isScrapingError e = true
                  /\ includes url (messageOf e) = true).
Proof.
  intros fetch url. unfold fetchHtml, try_catch, bind.
  split; [|split; [|split]].
  - intros r -> Hok. rewrite Hok. reflexivity.
  - intros e -> He. rewrite He. reflexivity.
  - intros r e -> Hok Htext He. rewrite Hok, Htext. cbn. rewrite He.
    reflexivity.
  - intros e H Hown. split.
    + exact (fetchHtml_throws_ScrapingError _ _ _ H).
    + exact (fetchHtml_message_includes_url _ _ _ H Hown).
Qed.

(** X3.  Every fault the three extractor operations throw is a
    [ScrapingError]: nothing else leaves the extractor. *)
Theorem extractor_throws_only_ScrapingError :
  forall (fetch : Http.Fetch) (load : string -> completion document)
         (componentName : string) (e : thrown),
    (getComponentList fetch load = Throw e -> isScrapingError e = true)
    /\ (getComponentExamples fetch load componentName = Throw e ->
        isScrapingError e = true)
    /\ (getComponentApi fetch load componentName = Throw e ->
        isScrapingError e = true).
Proof.
  intros fetch load componentName e. split; [|split].
  - unfold getComponentList, try_catch, bind.
    destruct (fetchHtml fetch _) as [html|e0].
    + destruct (load html); [discriminate|].
      intros H. inversion H. reflexivity.
    + intros H. inversion H. reflexivity.
  - unfold getComponentExamples, try_catch, bind.
    assert (Hcatch : forall e0,
               (if isScrapingError e0 && negb (includes "404" (messageOf e0))
                then Throw e0
                else if negb (isScrapingError e0)
                     then Throw (ScrapingError
                                   ("Failed to get examples for "
                                    ++ componentName ++ ": "
                                    ++ messageOf e0)%string)
                     else @Return (list ComponentExample.t) [])
               = Throw e -> isScrapingError e = true).
    { intros e0. destruct (isScrapingError e0) eqn:He0; cbn.
      - destruct (includes "404" (messageOf e0)); cbn; [discriminate|].
        intros H. inversion H; subst. exact He0.
      - intros H. inversion H. reflexivity. }
    destruct (fetchHtml fetch _) as [html|e0]; [|apply Hcatch].
    destruct (load html) as [doc|e0]; [discriminate|apply Hcatch].
  - unfold getComponentApi, try_catch, bind.
    assert (Hcatch : forall e0,
               (if isScrapingError e0 && negb (includes "404" (messageOf e0))
                then Throw e0
                else if negb (isScrapingError e0)
                     then Throw (ScrapingError
                                   ("Failed to get API for "
                                    ++ componentName ++ ": "
                                    ++ messageOf e0)%string)
                     else @Return (option ComponentApi.t) None)
               = Throw e -> isScrapingError e = true).
    { intros e0. destruct (isScrapingError e0) eqn:He0; cbn.
      - destruct (includes "404" (messageOf e0)); cbn; [discriminate|].
        intros H. inversion H; subst. exact He0.
      - intros H. inversion H. reflexivity. }
    destruct (fetchHtml fetch _) as [html|e0]; [|apply Hcatch].
    destruct (load html) as [doc|e0]; [discriminate|apply Hcatch].
Qed.

(** X4.  What the two component operations do with a fault of the fetch:
    when its message contains the text 404 the result is the empty one
    ([[]], [null]); otherwise the same fault is thrown on, not wrapped
    again. *)
Theorem fetch_fault_downgrade_rule :
  forall (fetch : Http.Fetch) (load : string -> completion document)
         (componentName : string) (e : thrown),
    fetchHtml fetch (componentUrl componentName) = Throw e ->
    getComponentExamples fetch load componentName
    = (if includes "404" (messageOf e) then Return [] else Throw e)
    /\ getComponentApi fetch load componentName
       = (if includes "404" (messageOf e) then Return None else Throw e).
Proof.
  intros fetch load componentName e H. split.
  - exact (getComponentExamples_fault fetch load componentName e H).
  - exact (getComponentApi_fault fetch load componentName e H).
Qed.

Lemma fetch_fault_downgrade_rule_witness :
  fetchHtml Fixtures.serverError (componentUrl "Button")
  = Throw (ScrapingError
             "Failed to fetch https://www.heroui.com/docs/components/button: Internal Server Error")
  /\ getComponentExamples Fixtures.serverError (fun _ => Return []) "Button"
     = Throw (ScrapingError
                "Failed to fetch https://www.heroui.com/docs/components/button: Internal Server Error")
  /\ getComponentApi Fixtures.serverError (fun _ => Return []) "Button"
     = Throw (ScrapingError
                "Failed to fetch https://www.heroui.com/docs/components/button: Internal Server Error").
Proof.
  split; [reflexivity|].
  apply (fetch_fault_downgrade_rule
           Fixtures.serverError (fun _ => Return []) "Button"
           (ScrapingError
              "Failed to fetch https://www.heroui.com/docs/components/button: Internal Server Error")).
  reflexivity.
Defined.

(** X5.  For an identifier whose lower case contains the text 404, the
    two component operations never report a fault of the transport: the
    URL, and with it the fault's message, contains 404, so whatever went
    wrong the result is the empty one. *)
Theorem identifier_with_404_hides_faults :
  forall (fetch : Http.Fetch) (load : string -> completion document)
         (componentName : string) (e : thrown),
    includes "404" (toLowerCase componentName) = true ->
    fetchHtml fetch (componentUrl componentName) = Throw e ->
    ownFault fetch (componentUrl componentName) ->
    getComponentExamples fetch load componentName = Return []
    /\ getComponentApi fetch load componentName = Return None.
Proof.
  intros fetch load componentName e Hname Hfetch Hown.
  assert (H404 : includes "404" (messageOf e) = true).
  { apply (includes_trans _ (componentUrl componentName)).
    - unfold componentUrl.
      apply (includes_after "404" BASE_URL).
      apply (includes_after "404" "/components/"). exact Hname.
    - exact (fetchHtml_message_includes_url _ _ _ Hfetch Hown). }
  rewrite (getComponentExamples_fault _ _ _ _ Hfetch).
  rewrite (getComponentApi_fault _ _ _ _ Hfetch).
  rewrite H404. split; reflexivity.
Qed.

Lemma identifier_with_404_hides_faults_witness :
  includes "404" (toLowerCase "HTTP404") = true
  /\ getComponentExamples Fixtures.offline (fun _ => Return []) "HTTP404" = Return []
  /\ getComponentApi Fixtures.offline (fun _ => Return []) "HTTP404" = Return None.
Proof.
  split; [reflexivity|].
  apply (identifier_with_404_hides_faults
           Fixtures.offline (fun _ => Return []) "HTTP404"
           (ScrapingError
              "Network error fetching https://www.heroui.com/docs/components/http404: getaddrinfo ENOTFOUND www.heroui.com")).
  - reflexivity.
  - reflexivity.
  - reflexivity.
Defined.

(* ===================================================================== *)
(** ** Further properties of the adapter *)
(* ===================================================================== *)

(** X6.  Each handler adds to the logging channel one informational
    message when it starts and, only when the extractor throws, one error
    message after it; what was logged before stays in place. *)
Theorem handlers_log_start_and_fault :
  forall (listOutcome : completion (list ComponentReference.t))
         (examplesOutcome : string -> completion (list ComponentExample.t))
         (apiOutcome : string -> completion (option ComponentApi.t))
         (componentName : string) (l : list LoggingMessage),
    snd (get_heroui_component_list listOutcome l)
    = l ++ {| level := "info";
              data := [ "Executing get_heroui_component_list tool" ] |}
          :: match listOutcome with
             | Throw e =>
                 [ {| level := "error";
                      data := [ ("Error in get_heroui_component_list tool: "
                                 ++ messageOf e)%string ] |} ]
             | Return _ => []
             end
    /\ snd (get_heroui_component_examples examplesOutcome componentName l)
       = l ++ {| level := "info";
                 data := [ ("Executing get_heroui_component_examples tool for: "
                            ++ componentName)%string ] |}
             :: match examplesOutcome componentName with
                | Throw e =>
                    [ {| level := "error";
                         data := [ ("Error in get_heroui_component_examples tool for "
                                    ++ componentName ++ ": "
                                    ++ messageOf e)%string ] |} ]
                | Return _ => []
                end
    /\ snd (get_heroui_component_api apiOutcome componentName l)
       = l ++ {| level := "info";
                 data := [ ("Executing get_heroui_component_api tool for: "
                            ++ componentName)%string ] |}
             :: match apiOutcome componentName with
                | Throw e =>
                    [ {| level := "error";
                         data := [ ("Error in get_heroui_component_api tool for "
                                    ++ componentName ++ ": "
                                    ++ messageOf e)%string ] |} ]
                | Return _ => []
                end.
Proof.
  intros listOutcome examplesOutcome apiOutcome componentName l.
  split; [|split]; run_handler.
  - destruct listOutcome as [[|c cs]|e]; cbn;
      rewrite <- ?app_assoc; reflexivity.
  - destruct (examplesOutcome componentName) as [[|ex more]|e]; cbn;
      rewrite <- ?app_assoc; reflexivity.
  - destruct (apiOutcome componentName) as [[api|]|e]; cbn;
      rewrite <- ?app_assoc; reflexivity.
Qed.

(** X7.  The listing tool over a transport that answers the introduction
    page with a status outside 200-299: the host receives an error
    envelope whose text carries the prefixes of the handler, of
    [getComponentList] and of [fetchHtml], the URL of the page and the
    status text. *)
Theorem list_tool_reports_failed_fetch :
  forall (fetch : Http.Fetch) (load : string -> completion document)
         (r : Http.Response) (l : list LoggingMessage),
    fetch "https://www.heroui.com/docs/guide/introduction" = Return r ->
    Http.ok r = false ->
    fst (get_heroui_component_list (getComponentList fetch load) l)
    = Return {| isError := Some true;
                content :=
                  [ TextItem ("Error fetching component list: Failed to get component list: Failed to fetch https://www.heroui.com/docs/guide/introduction: "
                              ++ Http.statusText r) ] |}.
Proof.
  intros fetch load r l Hfetch Hok.
  assert (H : getComponentList fetch load
              = Throw (ScrapingError
                         ("Failed to get component list: Failed to fetch https://www.heroui.com/docs/guide/introduction: "
                          ++ Http.statusText r)%string)).
  { unfold getComponentList, fetchHtml, try_catch, bind.
    change (BASE_URL ++ "/guide/introduction")%string
      with "https://www.heroui.com/docs/guide/introduction".
    rewrite Hfetch, Hok. reflexivity. }
  run_handler. rewrite H. reflexivity.
Qed.

Lemma list_tool_reports_failed_fetch_witness :
  fst (get_heroui_component_list
         (getComponentList Fixtures.serverError (fun _ => Return [])) [])
  = Return {| isError := Some true;
              content :=
                [ TextItem "Error fetching component list: Failed to get component list: Failed to fetch https://www.heroui.com/docs/guide/introduction: Internal Server Error" ] |}.
Proof.
  apply (list_tool_reports_failed_fetch
           Fixtures.serverError (fun _ => Return [])
           {| Http.status := 500;
              Http.statusText := "Internal Server Error";
              Http.text := Return EmptyString |} []).
  - reflexivity.
  - reflexivity.
Defined.

(** X8.  The two component tools over a transport that answers the
    component's page with a status outside 200-299.  When the fault's
    message (the URL with the lower-cased identifier, and the status text)
    contains 404 the host receives the text that nothing was found,
    without error flag; otherwise it receives an error envelope that
    quotes the identifier as it was given, then the fault's message. *)
Theorem component_tools_on_failed_fetch :
  forall (fetch : Http.Fetch) (load : string -> completion document)
         (componentName : string) (r : Http.Response)
         (l : list LoggingMessage),
    fetch (componentUrl componentName) = Return r ->
    Http.ok r = false ->
    let message := ("Failed to fetch " ++ componentUrl componentName ++ ": "
                    ++ Http.statusText r)%string in
    fst (get_heroui_component_examples (getComponentExamples fetch load)
                                       componentName l)
    = Return (if includes "404" message
              then {| isError := None;
                      content :=
                        [ TextItem ("No examples found for component '"
                                    ++ componentName
                                    ++ "'. Check the component name or the documentation structure.") ] |}
              else {| isError := Some true;
                      content :=
                        [ TextItem ("Error fetching examples for "
                                    ++ componentName ++ ": " ++ message) ] |})
    /\ fst (get_heroui_component_api (getComponentApi fetch load)
                                     componentName l)
       = Return (if includes "404" message
                 then {| isError := None;
                         content :=
                           [ TextItem ("No API documentation found for component '"
                                       ++ componentName
                                       ++ "'. Check the component name or the documentation structure.") ] |}
                 else {| isError := Some true;
                         content :=
                           [ TextItem ("Error fetching API for "
                                       ++ componentName ++ ": " ++ message) ] |}).
Proof.
  intros fetch load componentName r l Hfetch Hok message.
  assert (H : fetchHtml fetch (componentUrl componentName)
              = Throw (ScrapingError message)).
  { unfold fetchHtml, try_catch, bind. rewrite Hfetch, Hok. reflexivity. }
  split; run_handler.
  - rewrite (getComponentExamples_fault _ _ _ _ H). cbn [messageOf].
    destruct (includes "404" message); reflexivity.
  - rewrite (getComponentApi_fault _ _ _ _ H). cbn [messageOf].
    destruct (includes "404" message); reflexivity.
Qed.

Lemma component_tools_on_failed_fetch_witness :
  fst (get_heroui_component_examples
         (getComponentExamples Fixtures.notFound (fun _ => Return [])) "Button" [])
  = Return {| isError := Some true;
              content :=
                [ TextItem "Error fetching examples for Button: Failed to fetch https://www.heroui.com/docs/components/button: Not Found" ] |}
  /\ fst (get_heroui_component_api
            (getComponentApi Fixtures.notFound (fun _ => Return [])) "Button" [])
     = Return {| isError := Some true;
                 content :=
                   [ TextItem "Error fetching API for Button: Failed to fetch https://www.heroui.com/docs/components/button: Not Found" ] |}.
Proof.
  apply (component_tools_on_failed_fetch
           Fixtures.notFound (fun _ => Return []) "Button"
           {| Http.status := 404; Http.statusText := "Not Found";
              Http.text := Return "<h1>Page not found</h1>" |} []).
  - reflexivity.
  - reflexivity.
Defined.

(** X9.  [connect] has no try/catch: when connecting the server fails the
    fault is thrown on and nothing is logged; when it succeeds one
    informational message is logged after what was logged before. *)
Theorem connect_logs_only_once_connected :
  forall (serverConnect : completion unit) (l : list LoggingMessage),
    connect serverConnect l
    = match serverConnect with
      | Return _ =>
          (Return tt,
           l ++ [ {| level := "info";
                     data := [ "Minimal MCP Server connected via stdio and ready." ] |} ])
      | Throw e => (Throw e, l)
      end.
Proof.
  intros [[]|e] l; reflexivity.
Qed.

(* ===================================================================== *)
(** ** Further properties of the extracted values *)
(* ===================================================================== *)

Lemma or_else_not_empty : forall s d : string,
    d <> EmptyString -> or_else s d <> EmptyString.
Proof.
  intros s d Hd. unfold or_else. destruct (truthy s) eqn:Hs.
  - apply truthy_not_empty. exact Hs.
  - exact Hd.
Qed.

Lemma languageOf_not_empty : forall codeElement,
    languageOf codeElement <> EmptyString.
Proof.
  intros codeElement. unfold languageOf.
  destruct (attrOf "class" codeElement) as [cls|]; [|discriminate].
  destruct (pop (split "-" cls)) as [l|]; [|discriminate].
  apply or_else_not_empty. discriminate.
Qed.

Lemma or_undefined_some : forall s t : string,
    or_undefined s = Some t -> t = s /\ s <> EmptyString.
Proof.
  intros s t. unfold or_undefined. destruct (truthy s) eqn:Hs;
    [|discriminate].
  intros H. inversion H; subst. split; [reflexivity|].
  apply truthy_not_empty. exact Hs.
Qed.

(** X10.  Every example [getComponentExamples] returns has a code that is
    not empty and has no white space at its ends, a language that is not
    empty, and a title that, when there is one, is not empty and has no
    white space at its ends. *)
Theorem examples_are_trimmed_and_not_empty :
  forall (fetch : Http.Fetch) (load : string -> completion document)
         (componentName : string) (examples : list ComponentExample.t),
    getComponentExamples fetch load componentName = Return examples ->
    Forall (fun ex =>
              ComponentExample.code ex <> EmptyString
              /\ trim (ComponentExample.code ex) = ComponentExample.code ex
              /\ ComponentExample.language ex <> EmptyString
              /\ match ComponentExample.title ex with
                 | Some t => t <> EmptyString /\ trim t = t
                 | None => True
                 end)
           examples.
Proof.
  intros fetch load componentName examples H.
  assert (Hdoc : forall doc ex, In ex (examplesOf doc) ->
             ComponentExample.code ex <> EmptyString
             /\ trim (ComponentExample.code ex) = ComponentExample.code ex
             /\ ComponentExample.language ex <> EmptyString
             /\ match ComponentExample.title ex with
                | Some t => t <> EmptyString /\ trim t = t
                | None => True
                end).
  { intros doc ex Hin. unfold examplesOf in Hin.
    rewrite fold_pushExample in Hin. cbn [app] in Hin.
    apply in_flat_map in Hin. destruct Hin as (d & _ & Hex).
    unfold pushExample in Hex.
    destruct (truthy (trim (text (findPreCode [ d ])))) eqn:Hcode;
      [|contradiction].
    cbn [app In] in Hex. destruct Hex as [<-|[]].
    cbn [ComponentExample.code ComponentExample.language
         ComponentExample.title].
    split; [apply truthy_not_empty; exact Hcode|].
    split; [apply trim_idempotent|].
    split; [apply languageOf_not_empty|].
    destruct (or_undefined (trim (text (first (prevAll "h3" d)))))
      as [t|] eqn:Ht; [|exact I].
    apply or_undefined_some in Ht. destruct Ht as [-> Hne].
    split; [exact Hne|apply trim_idempotent]. }
  destruct (getComponentExamples_returns _ _ _ _ H)
    as [->|(html & doc & _ & _ & ->)]; [constructor|].
  apply Forall_forall. intros ex Hin. exact (Hdoc _ _ Hin).
Qed.

Lemma examples_are_trimmed_and_not_empty_witness :
  getComponentExamples (Fixtures.serving "<h3>Sizes</h3>")
                       (fun _ => Return Fixtures.twoPreviews) "button"
  = Return [ {| ComponentExample.title := Some "Sizes";
                ComponentExample.code := "<Button size=sm/>";
                ComponentExample.language := "tsx" |} ]
  /\ Forall (fun ex =>
               ComponentExample.code ex <> EmptyString
               /\ trim (ComponentExample.code ex) = ComponentExample.code ex
               /\ ComponentExample.language ex <> EmptyString
               /\ match ComponentExample.title ex with
                  | Some t => t <> EmptyString /\ trim t = t
                  | None => True
                  end)
            [ {| ComponentExample.title := Some "Sizes";
                 ComponentExample.code := "<Button size=sm/>";
                 ComponentExample.language := "tsx" |} ].
Proof.
  split; [reflexivity|].
  apply (examples_are_trimmed_and_not_empty
           (Fixtures.serving "<h3>Sizes</h3>")
           (fun _ => Return Fixtures.twoPreviews) "button").
  reflexivity.
Defined.

(* ===================================================================== *)
(** ** Further properties of the API scan *)
(* ===================================================================== *)

Lemma cellText_trimmed : forall cells i,
    trim (cellText cells i) = cellText cells i.
Proof.
  intros cells i. unfold cellText.
  destruct (nth_error cells i); apply trim_idempotent.
Qed.

(** A row of a props table leaves the events alone and at most appends
    one property; a row of an events table does the converse. *)
Lemma pushProp_appends : forall api tr,
    exists more,
      pushProp api tr
      = {| ComponentApi.props := ComponentApi.props api ++ more;
           ComponentApi.events := ComponentApi.events api |}
      /\ Forall (fun p =>
                   trim (ApiProperty.name p) = ApiProperty.name p
                   /\ trim (ApiProperty.type p) = ApiProperty.type p
                   /\ (forall d, ApiProperty.description p = Some d ->
                                 trim d = d)
                   /\ (forall d, ApiProperty.defaultValue p = Some d ->
                                 trim d = d))
                more.
Proof.
  intros [ps es] tr. unfold pushProp. cbn [ComponentApi.props ComponentApi.events].
  destruct (2 <=? length (findCells [ tr ]))%nat.
  - eexists. split; [reflexivity|]. constructor; [|constructor].
    cbn [ApiProperty.name ApiProperty.type ApiProperty.description
         ApiProperty.defaultValue].
    repeat split; try apply cellText_trimmed.
    + intros d. destruct (2 <? length (findCells [ tr ]))%nat;
        [|discriminate]. intros H; inversion H. apply cellText_trimmed.
    + intros d. destruct (3 <? length (findCells [ tr ]))%nat;
        [|discriminate]. intros H; inversion H. apply cellText_trimmed.
  - exists []. rewrite app_nil_r. split; [reflexivity|constructor].
Qed.

Lemma pushEvent_appends : forall api tr,
    exists more,
      pushEvent api tr
      = {| ComponentApi.props := ComponentApi.props api;
           ComponentApi.events := ComponentApi.events api ++ more |}
      /\ Forall (fun e =>
                   trim (ApiEvent.name e) = ApiEvent.name e
                   /\ trim (ApiEvent.type e) = ApiEvent.type e
                   /\ (forall d, ApiEvent.description e = Some d ->
                                 trim d = d))
                more.
Proof.
  intros [ps es] tr. unfold pushEvent. cbn [ComponentApi.props ComponentApi.events].
  destruct (2 <=? length (findCells [ tr ]))%nat.
  - eexists. split; [reflexivity|]. constructor; [|constructor].
    cbn [ApiEvent.name ApiEvent.type ApiEvent.description].
    repeat split; try apply cellText_trimmed.
    intros d. destruct (2 <? length (findCells [ tr ]))%nat;
      [|discriminate]. intros H; inversion H. apply cellText_trimmed.
  - exists []. rewrite app_nil_r. split; [reflexivity|constructor].
Qed.

Lemma fold_pushProp_appends : forall rows api,
    exists more,
      fold_left pushProp rows api
      = {| ComponentApi.props := ComponentApi.props api ++ more;
           ComponentApi.events := ComponentApi.events api |}
      /\ Forall (fun p =>
                   trim (ApiProperty.name p) = ApiProperty.name p
                   /\ trim (ApiProperty.type p) = ApiProperty.type p
                   /\ (forall d, ApiProperty.description p = Some d ->
                                 trim d = d)
                   /\ (forall d, ApiProperty.defaultValue p = Some d ->
                                 trim d = d))
                more.
Proof.
  induction rows as [|tr rows IH]; intros api; cbn [fold_left].
  - exists []. rewrite app_nil_r. destruct api; split; [reflexivity|constructor].
  - destruct (pushProp_appends api tr) as (m1 & -> & H1).
    destruct (IH {| ComponentApi.props := ComponentApi.props api ++ m1;
                    ComponentApi.events := ComponentApi.events api |})
      as (m2 & -> & H2).
    cbn [ComponentApi.props ComponentApi.events].
    exists (m1 ++ m2). rewrite app_assoc. split; [reflexivity|].
    apply Forall_app. split; assumption.
Qed.

Lemma fold_pushEvent_appends : forall rows api,
    exists more,
      fold_left pushEvent rows api
      = {| ComponentApi.props := ComponentApi.props api;
           ComponentApi.events := ComponentApi.events api ++ more |}
      /\ Forall (fun e =>
                   trim (ApiEvent.name e) = ApiEvent.name e
                   /\ trim (ApiEvent.type e) = ApiEvent.type e
                   /\ (forall d, ApiEvent.description e = Some d ->
                                 trim d = d))
                more.
Proof.
  induction rows as [|tr rows IH]; intros api; cbn [fold_left].
  - exists []. rewrite app_nil_r. destruct api; split; [reflexivity|constructor].
  - destruct (pushEvent_appends api tr) as (m1 & -> & H1).
    destruct (IH {| ComponentApi.props := ComponentApi.props api;
                    ComponentApi.events := ComponentApi.events api ++ m1 |})
      as (m2 & -> & H2).
    cbn [ComponentApi.props ComponentApi.events].
    exists (m1 ++ m2). rewrite app_assoc. split; [reflexivity|].
    apply Forall_app. split; assumption.
Qed.

(** X11.  One heading touches one section and only appends to it.  When
    the heading's lower-cased text contains props, the table after it adds
    to the props and the events stay as they were, even if the text
    contains events as well; when it does not, the props stay as they
    were and the events can only grow. *)
Theorem heading_appends_to_one_section :
  forall (api : ComponentApi.t) (h3 : selected),
    let title := toLowerCase (trim (text [ h3 ])) in
    (includes "props" title = true ->
     ComponentApi.events (scanHeading api h3) = ComponentApi.events api
     /\ exists more,
         ComponentApi.props (scanHeading api h3)
         = ComponentApi.props api ++ more)
    /\ (includes "props" title = false ->
        ComponentApi.props (scanHeading api h3) = ComponentApi.props api
        /\ exists more,
            ComponentApi.events (scanHeading api h3)
            = ComponentApi.events api ++ more).
Proof.
  intros api h3 title. unfold scanHeading. fold title. split; intros Hp;
    rewrite Hp.
  - destruct (0 <? length (first (next "table" h3)))%nat.
    + destruct (fold_pushProp_appends
                  (findBodyRows (first (next "table" h3))) api)
        as (more & -> & _).
      cbn. eauto.
    + split; [reflexivity|]. exists []. rewrite app_nil_r. reflexivity.
  - destruct (0 <? length (first (next "table" h3)))%nat.
    + destruct (includes "events" title).
      * destruct (fold_pushEvent_appends
                    (findBodyRows (first (next "table" h3))) api)
          as (more & -> & _).
        cbn. eauto.
      * split; [reflexivity|]. exists []. rewrite app_nil_r. reflexivity.
    + split; [reflexivity|]. exists []. rewrite app_nil_r. reflexivity.
Qed.

Lemma scanHeading_appends : forall api h3,
    exists moreProps moreEvents,
      scanHeading api h3
      = {| ComponentApi.props := ComponentApi.props api ++ moreProps;
           ComponentApi.events := ComponentApi.events api ++ moreEvents |}
      /\ Forall (fun p =>
                   trim (ApiProperty.name p) = ApiProperty.name p
                   /\ trim (ApiProperty.type p) = ApiProperty.type p
                   /\ (forall d, ApiProperty.description p = Some d ->
                                 trim d = d)
                   /\ (forall d, ApiProperty.defaultValue p = Some d ->
                                 trim d = d))
                moreProps
      /\ Forall (fun e =>
                   trim (ApiEvent.name e) = ApiEvent.name e
                   /\ trim (ApiEvent.type e) = ApiEvent.type e
                   /\ (forall d, ApiEvent.description e = Some d ->
                                 trim d = d))
                moreEvents.
Proof.
  intros api h3.
  assert (Hsame : exists moreProps moreEvents,
             api
             = {| ComponentApi.props := ComponentApi.props api ++ moreProps;
                  ComponentApi.events := ComponentApi.events api ++ moreEvents |}
             /\ Forall (fun p =>
                          trim (ApiProperty.name p) = ApiProperty.name p
                          /\ trim (ApiProperty.type p) = ApiProperty.type p
                          /\ (forall d, ApiProperty.description p = Some d ->
                                        trim d = d)
                          /\ (forall d, ApiProperty.defaultValue p = Some d ->
                                        trim d = d))
                       moreProps
             /\ Forall (fun e =>
                          trim (ApiEvent.name e) = ApiEvent.name e
                          /\ trim (ApiEvent.type e) = ApiEvent.type e
                          /\ (forall d, ApiEvent.description e = Some d ->
                                        trim d = d))
                       moreEvents).
  { exists [], []. rewrite !app_nil_r. destruct api.
    repeat split; constructor. }
  unfold scanHeading.
  destruct (0 <? length (first (next "table" h3)))%nat; [|exact Hsame].
  destruct (includes "props" (toLowerCase (trim (text [ h3 ])))).
  - destruct (fold_pushProp_appends
                (findBodyRows (first (next "table" h3))) api)
      as (more & -> & Hmore).
    exists more, []. rewrite app_nil_r.
    repeat split; [exact Hmore|constructor].
  - destruct (includes "events" (toLowerCase (trim (text [ h3 ]))));
      [|exact Hsame].
    destruct (fold_pushEvent_appends
                (findBodyRows (first (next "table" h3))) api)
      as (more & -> & Hmore).
    exists [], more. rewrite app_nil_r.
    repeat split; [constructor|exact Hmore].
Qed.

Lemma fold_scanHeading_appends : forall hs api,
    exists moreProps moreEvents,
      fold_left scanHeading hs api
      = {| ComponentApi.props := ComponentApi.props api ++ moreProps;
           ComponentApi.events := ComponentApi.events api ++ moreEvents |}
      /\ Forall (fun p =>
                   trim (ApiProperty.name p) = ApiProperty.name p
                   /\ trim (ApiProperty.type p) = ApiProperty.type p
                   /\ (forall d, ApiProperty.description p = Some d ->
                                 trim d = d)
                   /\ (forall d, ApiProperty.defaultValue p = Some d ->
                                 trim d = d))
                moreProps
      /\ Forall (fun e =>
                   trim (ApiEvent.name e) = ApiEvent.name e
                   /\ trim (ApiEvent.type e) = ApiEvent.type e
                   /\ (forall d, ApiEvent.description e = Some d ->
                                 trim d = d))
                moreEvents.
Proof.
  induction hs as [|h hs IH]; intros api; cbn [fold_left].
  - exists [], []. rewrite !app_nil_r. destruct api.
    repeat split; constructor.
  - destruct (scanHeading_appends api h) as (p1 & e1 & -> & Hp1 & He1).
    destruct (IH {| ComponentApi.props := ComponentApi.props api ++ p1;
                    ComponentApi.events := ComponentApi.events api ++ e1 |})
      as (p2 & e2 & -> & Hp2 & He2).
    cbn [ComponentApi.props ComponentApi.events].
    exists (p1 ++ p2), (e1 ++ e2). rewrite !app_assoc.
    repeat split; apply Forall_app; split; assumption.
Qed.

(** X12.  In every value [getComponentApi] returns, the name and the type
    of each property and of each event, and the description and default
    value where they are set, have no white space at their ends. *)
Theorem api_fields_are_trimmed :
  forall (fetch : Http.Fetch) (load : string -> completion document)
         (componentName : string) (api : ComponentApi.t),
    getComponentApi fetch load componentName = Return (Some api) ->
    Forall (fun p =>
              trim (ApiProperty.name p) = ApiProperty.name p
              /\ trim (ApiProperty.type p) = ApiProperty.type p
              /\ (forall d, ApiProperty.description p = Some d -> trim d = d)
              /\ (forall d, ApiProperty.defaultValue p = Some d -> trim d = d))
           (ComponentApi.props api)
    /\ Forall (fun e =>
                 trim (ApiEvent.name e) = ApiEvent.name e
                 /\ trim (ApiEvent.type e) = ApiEvent.type e
                 /\ (forall d, ApiEvent.description e = Some d -> trim d = d))
              (ComponentApi.events api).
Proof.
  intros fetch load componentName api H.
  destruct (getComponentApi_returns _ _ _ _ H)
    as [H0|(html & doc & _ & _ & H0)]; [discriminate|].
  symmetry in H0. apply apiOf_present in H0. destruct H0 as [-> _].
  unfold scanned.
  destruct (fold_scanHeading_appends
              (headings doc)
              {| ComponentApi.props := []; ComponentApi.events := [] |})
    as (ps & es & -> & Hps & Hes).
  cbn. split; assumption.
Qed.

Lemma api_fields_are_trimmed_witness :
  getComponentApi (Fixtures.serving "<h3>Props</h3>")
                  (fun _ => Return Fixtures.switchPage) "switch"
  = Return (Some {| ComponentApi.props := [ Fixtures.isSelected ];
                    ComponentApi.events := [] |})
  /\ Forall (fun p =>
               trim (ApiProperty.name p) = ApiProperty.name p
               /\ trim (ApiProperty.type p) = ApiProperty.type p
               /\ (forall d, ApiProperty.description p = Some d -> trim d = d)
               /\ (forall d, ApiProperty.defaultValue p = Some d -> trim d = d))
            [ Fixtures.isSelected ].
Proof.
  split; [reflexivity|].
  apply (api_fields_are_trimmed
           (Fixtures.serving "<h3>Props</h3>")
           (fun _ => Return Fixtures.switchPage) "switch"
           {| ComponentApi.props := [ Fixtures.isSelected ];
              ComponentApi.events := [] |}).
  reflexivity.
Defined.

(** X13.  A fetched and parsed page on which no heading is both followed directly by
    a table and about props or events gives [null], and the API tool then
    answers with the text that no documentation was found, without error
    flag. *)
Theorem page_without_api_tables_is_not_found :
  forall (fetch : Http.Fetch) (load : string -> completion document)
         (componentName html : string) (doc : document)
         (l : list LoggingMessage),
    fetchHtml fetch (componentUrl componentName) = Return html ->
    load html = Return doc ->
    forallb (fun h3 =>
               (length (first (next "table" h3)) =? 0)%nat
               || (negb (includes "props" (toLowerCase (trim (text [ h3 ]))))
                   && negb (includes "events"
                                     (toLowerCase (trim (text [ h3 ]))))))
            (headings doc) = true ->
    getComponentApi fetch load componentName = Return None
    /\ fst (get_heroui_component_api (getComponentApi fetch load)
                                     componentName l)
       = Return {| isError := None;
                   content :=
                     [ TextItem ("No API documentation found for component '"
                                 ++ componentName
                                 ++ "'. Check the component name or the documentation structure.") ] |}.
Proof.
  intros fetch load componentName html doc l Hfetch Hdoc Hnone.
  assert (Hfold : forall hs api,
             forallb (fun h3 =>
                        (length (first (next "table" h3)) =? 0)%nat
                        || (negb (includes "props"
                                           (toLowerCase (trim (text [ h3 ]))))
                            && negb (includes "events"
                                              (toLowerCase (trim (text [ h3 ]))))))
                     hs = true ->
             fold_left scanHeading hs api = api).
  { induction hs as [|h hs IH]; intros api Hhs; cbn [fold_left];
      [reflexivity|].
    cbn [forallb] in Hhs. apply andb_true_iff in Hhs.
    destruct Hhs as [Hh Hhs].
    assert (Hstep : scanHeading api h = api).
    { unfold scanHeading. apply orb_true_iff in Hh. destruct Hh as [Hh|Hh].
      - destruct (length (first (next "table" h))); [reflexivity|discriminate].
      - apply andb_true_iff in Hh. destruct Hh as [Hp He].
        apply negb_true_iff in Hp. apply negb_true_iff in He.
        rewrite Hp, He.
        destruct (0 <? length (first (next "table" h)))%nat; reflexivity. }
    rewrite Hstep. apply IH. exact Hhs. }
  assert (Hapi : getComponentApi fetch load componentName = Return None).
  { rewrite (getComponentApi_fetched _ _ _ _ _ Hfetch Hdoc). f_equal.
    unfold apiOf, scanned. rewrite (Hfold _ _ Hnone). reflexivity. }
  split; [exact Hapi|].
  run_handler. rewrite Hapi. reflexivity.
Qed.

Lemma page_without_api_tables_is_not_found_witness :
  getComponentApi (Fixtures.serving "<h3>Basic Usage</h3>")
                  (fun _ => Return Fixtures.buttonPage) "button"
  = Return None
  /\ fst (get_heroui_component_api
            (getComponentApi (Fixtures.serving "<h3>Basic Usage</h3>")
                             (fun _ => Return Fixtures.buttonPage))
            "button" [])
     = Return {| isError := None;
                 content :=
                   [ TextItem "No API documentation found for component 'button'. Check the component name or the documentation structure." ] |}.
Proof.
  apply (page_without_api_tables_is_not_found
           (Fixtures.serving "<h3>Basic Usage</h3>")
           (fun _ => Return Fixtures.buttonPage) "button"
           "<h3>Basic Usage</h3>" Fixtures.buttonPage []).
  - reflexivity.
  - reflexivity.
  - reflexivity.
Defined.

(** X14.  In the text of the API tool an empty cell reads like a missing
    one: a props row whose fourth cell has no text gives the same bullet,
    and the same API text, as a row with the first three cells only. *)
Theorem empty_cell_reads_as_missing_cell :
  forall (componentName : string) (api : ComponentApi.t)
         (tr4 tr3 : selected) (a b c d : node),
    map el (findCells [ tr4 ]) = [ a; b; c; d ] ->
    map el (findCells [ tr3 ]) = [ a; b; c ] ->
    trim (textContent d) = EmptyString ->
    map propLine (ComponentApi.props (pushProp api tr4))
    = map propLine (ComponentApi.props (pushProp api tr3))
    /\ apiTextOf componentName (pushProp api tr4)
       = apiTextOf componentName (pushProp api tr3).
Proof.
  intros componentName [ps es] tr4 tr3 a b c d H4 H3 Hd.
  unfold pushProp.
  destruct (findCells [ tr4 ]) as [|x1 [|x2 [|x3 [|x4 [|x5 xs]]]]];
    try discriminate.
  destruct (findCells [ tr3 ]) as [|y1 [|y2 [|y3 [|y4 ys]]]];
    try discriminate.
  cbn [map] in H4, H3.
  injection H4 as Ha Hb Hc Hd4. injection H3 as Ha' Hb' Hc'.
  cbn [length Nat.leb Nat.ltb ComponentApi.props ComponentApi.events].
  unfold cellText, text. cbn [nth_error map String.concat].
  rewrite Ha, Hb, Hc, Hd4, Ha', Hb', Hc', Hd.
  assert (Hline :
            propLine {| ApiProperty.name := trim (textContent a);
                        ApiProperty.type := trim (textContent b);
                        ApiProperty.description := Some (trim (textContent c));
                        ApiProperty.defaultValue := Some EmptyString |}
            = propLine {| ApiProperty.name := trim (textContent a);
                          ApiProperty.type := trim (textContent b);
                          ApiProperty.description := Some (trim (textContent c));
                          ApiProperty.defaultValue := None |})
    by reflexivity.
  assert (Hmap : forall x y : ApiProperty.t,
             propLine x = propLine y ->
             map propLine (ps ++ [ x ]) = map propLine (ps ++ [ y ])).
  { intros x y Hxy. rewrite !map_app. cbn [map]. rewrite Hxy. reflexivity. }
  split.
  - apply Hmap. exact Hline.
  - unfold apiTextOf. cbn [ComponentApi.props ComponentApi.events].
    rewrite (Hmap _ _ Hline). rewrite !length_app. reflexivity.
Qed.

Lemma empty_cell_reads_as_missing_cell_witness :
  let row := fun cells =>
               {| el := Element "tr" [] cells; prevSiblings := [];
                  nextSiblings := []; ancestors := [ "tbody" ] |} in
  let api := {| ComponentApi.props := []; ComponentApi.events := [] |} in
  apiTextOf "switch"
            (pushProp api
                      (row [ Element "td" [] [ Text "isSelected" ];
                             Element "td" [] [ Text "boolean" ];
                             Element "td" [] [ Text "Whether selected" ];
                             Element "td" [] [ Text "  " ] ]))
  = apiTextOf "switch"
              (pushProp api
                        (row [ Element "td" [] [ Text "isSelected" ];
                               Element "td" [] [ Text "boolean" ];
                               Element "td" [] [ Text "Whether selected" ] ])).
Proof.
  cbv zeta.
  refine (proj2 (empty_cell_reads_as_missing_cell
                   "switch"
                   {| ComponentApi.props := []; ComponentApi.events := [] |}
                   _ _
                   (Element "td" [] [ Text "isSelected" ])
                   (Element "td" [] [ Text "boolean" ])
                   (Element "td" [] [ Text "Whether selected" ])
                   (Element "td" [] [ Text "  " ])
                   _ _ _)).
  - reflexivity.
  - reflexivity.
  - reflexivity.
Defined.

(* ===================================================================== *)
(** ** Further properties of the component list *)
(* ===================================================================== *)

(** Induction on a node with the hypothesis for all its children. *)
Lemma node_children_ind : forall P : node -> Prop,
    (forall d, P (Text d)) ->
    (forall t a cs, Forall P cs -> P (Element t a cs)) ->
    forall n, P n.
Proof.
  intros P HText HElement. fix IH 1. intros [t a cs|d].
  - apply HElement. induction cs as [|c cs IHcs]; constructor.
    + apply IH.
    + exact IHcs.
  - apply HText.
Qed.

(** What [eachSibling] visits: every sibling, with the siblings before
    it, nearest first, and the siblings after it. *)
Lemma eachSibling_In : forall (A : Type) f (l before : list node) (s : A),
    In s (eachSibling f before l)
    <-> exists l1 c l2,
          l = l1 ++ c :: l2 /\ In s (f (rev l1 ++ before) l2 c).
Proof.
  intros A f l. induction l as [|c after IH]; intros before s;
    cbn [eachSibling].
  - split; [contradiction|]. intros (l1 & c & l2 & H & _).
    destruct l1; discriminate.
  - rewrite in_app_iff, IH. split.
    + intros [H|(l1 & c' & l2 & -> & H)].
      * exists [], c, after. split; [reflexivity|exact H].
      * exists (c :: l1), c', l2. split; [reflexivity|].
        cbn [rev]. rewrite <- app_assoc. exact H.
    + intros (l1 & c' & l2 & Hl & H). destruct l1 as [|x l1].
      * cbn in Hl. injection Hl as <- <-. left. exact H.
      * cbn [app] in Hl. injection Hl as <- ->. right.
        exists l1, c', l2. split; [reflexivity|].
        cbn [rev] in H. rewrite <- app_assoc in H. exact H.
Qed.

(** An ancestor recorded for an element found below [n] is one of the
    ancestors [n] was entered with, or the tag of an element found there
    too. *)
Lemma descend_ancestors : forall n anc before after s t,
    In s (descend anc before after n) ->
    In t (ancestors s) ->
    In t anc
    \/ exists s', In s' (descend anc before after n)
                  /\ is_tag t (el s') = true.
Proof.
  induction n as [d|tag a cs IH] using node_children_ind;
    intros anc before after s t Hs Ht; cbn [descend] in *;
    [contradiction|].
  destruct Hs as [<-|Hs].
  - left. exact Ht.
  - apply eachSibling_In in Hs. destruct Hs as (l1 & c & l2 & -> & Hs).
    assert (Hc : forall anc before after s t,
               In s (descend anc before after c) ->
               In t (ancestors s) ->
               In t anc
               \/ exists s', In s' (descend anc before after c)
                             /\ is_tag t (el s') = true).
    { rewrite Forall_forall in IH. apply IH.
      apply in_or_app. right. left. reflexivity. }
    destruct (Hc _ _ _ _ _ Hs Ht) as [[<-|Hanc]|(s' & Hs' & Htag)].
    + right. eexists. split; [left; reflexivity|].
      cbn. apply String.eqb_refl.
    + left. exact Hanc.
    + right. exists s'. split; [|exact Htag].
      right. apply eachSibling_In. exists l1, c, l2.
      split; [reflexivity|exact Hs'].
Qed.

Lemma elementsOf_ancestors : forall doc s t,
    In s (elementsOf doc) -> In t (ancestors s) ->
    exists s', In s' (elementsOf doc) /\ is_tag t (el s') = true.
Proof.
  intros doc s t Hs Ht. unfold elementsOf in *.
  apply eachSibling_In in Hs. destruct Hs as (l1 & c & l2 & -> & Hs).
  destruct (descend_ancestors _ _ _ _ _ _ Hs Ht) as [[]|(s' & Hs' & Htag)].
  exists s'. split; [|exact Htag].
  apply eachSibling_In. exists l1, c, l2. split; [reflexivity|exact Hs'].
Qed.

(** X15.  A fetched and parsed introduction page without any [nav] element gives the
    empty list, whatever links it holds, and the listing tool then answers
    with the text that no components were found, without error flag. *)
Theorem page_without_nav_lists_nothing :
  forall (fetch : Http.Fetch) (load : string -> completion document)
         (html : string) (doc : document) (l : list LoggingMessage),
    fetchHtml fetch (BASE_URL ++ "/guide/introduction")%string = Return html ->
    load html = Return doc ->
    forallb (fun s => negb (is_tag "nav" (el s))) (elementsOf doc) = true ->
    getComponentList fetch load = Return []
    /\ fst (get_heroui_component_list (getComponentList fetch load) l)
       = Return {| isError := None;
                   content :=
                     [ TextItem "Could not find any components. The documentation structure might have changed." ] |}.
Proof.
  intros fetch load html doc l Hfetch Hdoc Hnav.
  assert (Hlinks : navComponentLinks doc = []).
  { unfold navComponentLinks.
    destruct (filter _ (elementsOf doc)) as [|s rest] eqn:E;
      [reflexivity|].
    assert (Hs : In s (s :: rest)) by (left; reflexivity).
    rewrite <- E in Hs. apply filter_In in Hs. destruct Hs as [Hin Hs].
    apply andb_true_iff in Hs. destruct Hs as [Hs _].
    apply andb_true_iff in Hs. destruct Hs as [_ Hanc].
    unfold hasAncestor in Hanc. apply existsb_exists in Hanc.
    destruct Hanc as (t & Ht & Heq). apply String.eqb_eq in Heq. subst t.
    destruct (elementsOf_ancestors _ _ _ Hin Ht) as (s' & Hs' & Htag).
    rewrite forallb_forall in Hnav. specialize (Hnav s' Hs').
    rewrite Htag in Hnav. discriminate. }
  assert (Hlist : getComponentList fetch load = Return []).
  { rewrite (getComponentList_fetched _ _ _ _ Hfetch Hdoc).
    unfold componentsOf. rewrite Hlinks. reflexivity. }
  split; [exact Hlist|].
  run_handler. rewrite Hlist. reflexivity.
Qed.

Lemma page_without_nav_lists_nothing_witness :
  getComponentList (Fixtures.serving "<main></main>")
                   (fun _ => Return Fixtures.linkOutsideNav)
  = Return []
  /\ fst (get_heroui_component_list
            (getComponentList (Fixtures.serving "<main></main>")
                              (fun _ => Return Fixtures.linkOutsideNav)) [])
     = Return {| isError := None;
                 content :=
                   [ TextItem "Could not find any components. The documentation structure might have changed." ] |}.
Proof.
  apply (page_without_nav_lists_nothing
           (Fixtures.serving "<main></main>")
           (fun _ => Return Fixtures.linkOutsideNav) "<main></main>"
           Fixtures.linkOutsideNav []).
  - reflexivity.
  - reflexivity.
  - reflexivity.
Defined.

(* ===================================================================== *)
(** ** Further properties of the two component tools *)
(* ===================================================================== *)

(** X16.  A fetched and parsed page on which no preview container holds code text
    (there is no container, or none has a nested code block with text)
    gives no example, and the examples tool then answers with the text
    that none was found, without error flag. *)
Theorem page_without_code_has_no_examples :
  forall (fetch : Http.Fetch) (load : string -> completion document)
         (componentName html : string) (doc : document)
         (l : list LoggingMessage),
    fetchHtml fetch (componentUrl componentName) = Return html ->
    load html = Return doc ->
    forallb (fun previewDiv =>
               negb (truthy (trim (text (findPreCode [ previewDiv ])))))
            (previewDivs doc) = true ->
    getComponentExamples fetch load componentName = Return []
    /\ fst (get_heroui_component_examples (getComponentExamples fetch load)
                                          componentName l)
       = Return {| isError := None;
                   content :=
                     [ TextItem ("No examples found for component '"
                                 ++ componentName
                                 ++ "'. Check the component name or the documentation structure.") ] |}.
Proof.
  intros fetch load componentName html doc l Hfetch Hdoc Hnone.
  assert (Hfold : forall ds examples,
             forallb (fun previewDiv =>
                        negb (truthy (trim (text (findPreCode [ previewDiv ])))))
                     ds = true ->
             fold_left pushExample ds examples = examples).
  { induction ds as [|d ds IH]; intros examples Hds; cbn [fold_left];
      [reflexivity|].
    cbn [forallb] in Hds. apply andb_true_iff in Hds.
    destruct Hds as [Hd Hds]. apply negb_true_iff in Hd.
    unfold pushExample at 2. rewrite Hd. apply IH. exact Hds. }
  assert (Hex : getComponentExamples fetch load componentName = Return []).
  { rewrite (getComponentExamples_fetched _ _ _ _ _ Hfetch Hdoc). f_equal.
    unfold examplesOf. apply Hfold. exact Hnone. }
  split; [exact Hex|].
  run_handler. rewrite Hex. reflexivity.
Qed.

Lemma page_without_code_has_no_examples_witness :
  getComponentExamples (Fixtures.serving "<h3>Props</h3>")
                       (fun _ => Return Fixtures.switchPage) "switch"
  = Return []
  /\ fst (get_heroui_component_examples
            (getComponentExamples (Fixtures.serving "<h3>Props</h3>")
                                  (fun _ => Return Fixtures.switchPage))
            "switch" [])
     = Return {| isError := None;
                 content :=
                   [ TextItem "No examples found for component 'switch'. Check the component name or the documentation structure." ] |}.
Proof.
  apply (page_without_code_has_no_examples
           (Fixtures.serving "<h3>Props</h3>")
           (fun _ => Return Fixtures.switchPage) "switch" "<h3>Props</h3>"
           Fixtures.switchPage []).
  - reflexivity.
  - reflexivity.
  - reflexivity.
Defined.

(** X17.  Whatever value the extractor returns for the API, even one with
    both sequences empty, the text of the API tool begins with the banner
    that names the component as it was given: trimming never reaches the
    banner, so the fallback text is never the answer. *)
Theorem api_tool_text_begins_with_banner :
  forall (apiOutcome : string -> completion (option ComponentApi.t))
         (componentName : string) (api : ComponentApi.t)
         (l : list LoggingMessage),
    apiOutcome componentName = Return (Some api) ->
    exists rest,
      fst (get_heroui_component_api apiOutcome componentName l)
      = Return {| isError := None;
                  content :=
                    [ TextItem ("API for " ++ componentName ++ ":" ++ rest) ] |}.
Proof.
  intros apiOutcome componentName api l Hapi.
  assert (Hor : or_else (trim (apiTextOf componentName api))
                        "No API details extracted."
                = trim (apiTextOf componentName api)).
  { unfold or_else. rewrite trim_apiTextOf_truthy. reflexivity. }
  assert (Hbanner : exists tail,
             apiTextOf componentName api
             = String "A" (("PI for " ++ componentName) ++ String ":" tail)%string).
  { unfold apiTextOf.
    destruct (0 <? length (ComponentApi.props api))%nat;
      destruct (0 <? length (ComponentApi.events api))%nat;
      eexists; rewrite ?append_assoc; cbn [append]; reflexivity. }
  destruct Hbanner as [tail Htail].
  destruct (trimEnd_keeps ("PI for " ++ componentName)%string ":" tail eq_refl)
    as [rest Hrest].
  exists rest. run_handler. rewrite Hapi. cbn. rewrite Hor, Htail.
  rewrite trim_nonwhite_head by reflexivity. rewrite Hrest.
  rewrite append_assoc. reflexivity.
Qed.

Lemma api_tool_text_begins_with_banner_witness :
  exists rest,
    fst (get_heroui_component_api
           (fun _ => Return (Some {| ComponentApi.props := [];
                                     ComponentApi.events := [] |}))
           "Switch" [])
    = Return {| isError := None;
                content := [ TextItem ("API for Switch:" ++ rest) ] |}.
Proof.
  apply (api_tool_text_begins_with_banner
           (fun _ => Return (Some {| ComponentApi.props := [];
                                     ComponentApi.events := [] |}))
           "Switch"
           {| ComponentApi.props := []; ComponentApi.events := [] |} []).
  reflexivity.
Defined.
